(** * jupyter_ydoc.yblob: the blob document [YBlob]

    A shallow embedding of [src/jupyter_ydoc/yblob.py] and of the parts of
    its collaborators that the class calls:
    - [Base64]: Python's [base64.b64encode] / [base64.b64decode] (CPython
      3.11 [binascii.b2a_base64] and [binascii.a2b_base64], non-strict mode);
    - [Crdt]: the observable behaviour of a [pycrdt.Map] root node (item
      assignment, lookup with default, observe / unobserve);
    - [YBlob]: the class itself, with the members it inherits from
      [YBaseDoc]. *)

From Stdlib Require Import ZArith Lia List Bool.
From Stdlib Require Import Strings.Byte Strings.String.
From Stdlib Require SpecFloat.
From stdpp Require Import base option strings gmap.

Local Open Scope Z_scope.

(* ===================================================================== *)
(** ** Bytes *)
(* ===================================================================== *)

Module Bytes.

(** A Python [bytes] object is a sequence of octets. *)
Definition bytes := list byte.

Definition to_Z (b : byte) : Z := Z.of_N (Byte.to_N b).

(** Storing an [int] into an [unsigned char] keeps its low eight bits. *)
Definition of_Z (z : Z) : byte :=
  match Byte.of_N (Z.to_N (z mod 256)) with
  | Some b => b
  | None => "000"%byte
  end.

(** A Python [str] is represented by the octets of its UTF-8 encoding, the
    way Rocq's [string] literals are; [str.encode()] then reads the octets
    and [bytes.decode()] of ASCII data rebuilds the text. *)
Definition str_encode (s : string) : bytes := list_byte_of_string s.
Definition bytes_decode (b : bytes) : string := string_of_list_byte b.

End Bytes.

(* ===================================================================== *)
(** ** base64 (CPython [Modules/binascii.c], as called by [Lib/base64.py]) *)
(* ===================================================================== *)

Module Base64.
Import Bytes.

Definition BASE64_PAD : Z := 61. (* '=' *)

Definition table_b2a_base64 : string :=
  "ABCDEFGHIJKLMNOPQRSTUVWXYZabcdefghijklmnopqrstuvwxyz0123456789+/".

(** [table_a2b_base64]: [-1] stored in an [unsigned char] reads 255. *)
Definition table_a2b_base64 : list Z :=
  [ 255;255;255;255; 255;255;255;255; 255;255;255;255; 255;255;255;255;
    255;255;255;255; 255;255;255;255; 255;255;255;255; 255;255;255;255;
    255;255;255;255; 255;255;255;255; 255;255;255; 62; 255;255;255; 63;
     52; 53; 54; 55;  56; 57; 58; 59;  60; 61;255;255; 255;  0;255;255;
    255;  0;  1;  2;   3;  4;  5;  6;   7;  8;  9; 10;  11; 12; 13; 14;
     15; 16; 17; 18;  19; 20; 21; 22;  23; 24; 25;255; 255;255;255;255;
    255; 26; 27; 28;  29; 30; 31; 32;  33; 34; 35; 36;  37; 38; 39; 40;
     41; 42; 43; 44;  45; 46; 47; 48;  49; 50; 51;255; 255;255;255;255;

    255;255;255;255; 255;255;255;255; 255;255;255;255; 255;255;255;255;
    255;255;255;255; 255;255;255;255; 255;255;255;255; 255;255;255;255;
    255;255;255;255; 255;255;255;255; 255;255;255;255; 255;255;255;255;
    255;255;255;255; 255;255;255;255; 255;255;255;255; 255;255;255;255;
    255;255;255;255; 255;255;255;255; 255;255;255;255; 255;255;255;255;
    255;255;255;255; 255;255;255;255; 255;255;255;255; 255;255;255;255;
    255;255;255;255; 255;255;255;255; 255;255;255;255; 255;255;255;255;
    255;255;255;255; 255;255;255;255; 255;255;255;255; 255;255;255;255 ].

Definition b2a (i : Z) : byte :=
  nth (Z.to_nat i) (list_byte_of_string table_b2a_base64) "000"%byte.

Definition a2b (c : Z) : Z := nth (Z.to_nat c) table_a2b_base64 255.

(** *** Encoder: [binascii.b2a_base64(data, newline=False)] *)

(** The inner [while (leftbits >= 6)] loop. Every turn lowers [leftbits]
    by six, so [leftbits] itself bounds the number of turns. *)
Fixpoint b2a_while (fuel : nat) (leftchar leftbits : Z) (out : bytes)
  : Z * bytes :=
  match fuel with
  | O => (leftbits, out)
  | S fuel' =>
      if 6 <=? leftbits then
        let this_ch := Z.land (Z.shiftr leftchar (leftbits - 6)) 63 in
        b2a_while fuel' leftchar (leftbits - 6) (out ++ [b2a this_ch])
      else (leftbits, out)
  end.

Record b2a_state := B2A { e_leftchar : Z; e_leftbits : Z; e_out : bytes }.

(** One turn of the [for] loop; [leftchar] is an [unsigned int]. *)
Definition b2a_step (st : b2a_state) (b : byte) : b2a_state :=
  let leftchar :=
    Z.lor (Z.shiftl (e_leftchar st) 8 mod 2 ^ 32) (to_Z b) in
  let leftbits := e_leftbits st + 8 in
  let '(leftbits', out) :=
    b2a_while (Z.to_nat leftbits) leftchar leftbits (e_out st) in
  B2A leftchar leftbits' out.

Definition b2a_finish (st : b2a_state) : bytes :=
  if e_leftbits st =? 2 then
    e_out st ++ [b2a (Z.shiftl (Z.land (e_leftchar st) 3) 4);
                 of_Z BASE64_PAD; of_Z BASE64_PAD]
  else if e_leftbits st =? 4 then
    e_out st ++ [b2a (Z.shiftl (Z.land (e_leftchar st) 15) 2);
                 of_Z BASE64_PAD]
  else e_out st.

Definition b2a_base64 (data : bytes) : bytes :=
  b2a_finish (fold_left b2a_step data (B2A 0 0 [])).

(** [base64.b64encode(s)] with [altchars=None]. *)
Definition b64encode (s : bytes) : bytes := b2a_base64 s.

(** *** Decoder: [binascii.a2b_base64(data, strict_mode=False)] *)

Inductive binascii_error :=
| InvalidLength (data_chars : Z)
  (* "Invalid base64-encoded string: number of data characters (%zd)
      cannot be 1 more than a multiple of 4" *)
| IncorrectPadding. (* "Incorrect padding" *)

Record a2b_state :=
  A2B { quad_pos : Z; d_leftchar : Z; pads : Z; bin_data : bytes }.

(** Outcome of one turn: go on with the next character, or [goto done]. *)
Inductive a2b_ctl := Next (st : a2b_state) | Done (st : a2b_state).

Definition a2b_step (st : a2b_state) (c : byte) : a2b_ctl :=
  let this_ch := to_Z c in
  if this_ch =? BASE64_PAD then
    if 2 <=? quad_pos st then
      let st' := A2B (quad_pos st) (d_leftchar st) (pads st + 1)
                     (bin_data st) in
      if 4 <=? quad_pos st + (pads st + 1) then Done st' else Next st'
    else Next st
  else
    let this_ch := a2b this_ch in
    if 64 <=? this_ch then Next st
    else
      let leftchar := d_leftchar st in
      let out := bin_data st in
      if quad_pos st =? 0 then
        Next (A2B 1 this_ch 0 out)
      else if quad_pos st =? 1 then
        Next (A2B 2 (Z.land this_ch 15) 0
                (out ++ [of_Z (Z.lor (Z.shiftl leftchar 2)
                                     (Z.shiftr this_ch 4))]))
      else if quad_pos st =? 2 then
        Next (A2B 3 (Z.land this_ch 3) 0
                (out ++ [of_Z (Z.lor (Z.shiftl leftchar 4)
                                     (Z.shiftr this_ch 2))]))
      else if quad_pos st =? 3 then
        Next (A2B 0 0 0
                (out ++ [of_Z (Z.lor (Z.shiftl leftchar 6) this_ch)]))
      else Next (A2B (quad_pos st) leftchar 0 out).

Fixpoint a2b_loop (st : a2b_state) (data : bytes) : a2b_ctl :=
  match data with
  | [] => Next st
  | c :: rest =>
      match a2b_step st c with
      | Next st' => a2b_loop st' rest
      | Done st' => Done st'
      end
  end.

Definition a2b_base64 (data : bytes) : binascii_error + bytes :=
  match a2b_loop (A2B 0 0 0 []) data with
  | Done st => inr (bin_data st)
  | Next st =>
      if quad_pos st =? 0 then inr (bin_data st)
      else if quad_pos st =? 1 then
        inl (InvalidLength (Z.of_nat (length (bin_data st)) / 3 * 4 + 1))
      else inl IncorrectPadding
  end.

(** [base64.b64decode(s)] with [altchars=None, validate=False]. *)
Definition b64decode (s : bytes) : binascii_error + bytes := a2b_base64 s.

(** *** Base64 text (RFC 4648, section 4) *)

Definition is_pad (c : byte) : bool := to_Z c =? BASE64_PAD.

(** One of the 64 characters of the alphabet. *)
Definition is_digit (c : byte) : bool :=
  negb (is_pad c) && (a2b (to_Z c) <? 64).

(** Valid base64 text: characters of the alphabet, then at most two pad
    characters, a multiple of four characters in all. *)
Definition valid_base64_bytes (cs : bytes) : bool :=
  (Z.of_nat (length cs) mod 4 =? 0) &&
  match rev cs with
  | [] => true
  | d :: c :: rest =>
      forallb is_digit rest &&
      ((is_digit c && (is_digit d || is_pad d)) || (is_pad c && is_pad d))
  | _ => false
  end.

Definition is_valid_base64 (s : string) : bool :=
  valid_base64_bytes (str_encode s).

(** The encoding as RFC 4648 words it, to compare [b64encode] with: the
    input is read in groups of three octets, each 24-bit group is written
    as four 6-bit digits; a last group of one octet is filled with zero
    bits to two digits and followed by two pad characters, a last group of
    two octets to three digits followed by one. *)
Fixpoint rfc4648_encode (data : bytes) : bytes :=
  match data with
  | [] => []
  | [a] =>
      let n := to_Z a * 16 in
      [b2a (n / 64); b2a (n mod 64); of_Z BASE64_PAD; of_Z BASE64_PAD]
  | [a; b] =>
      let n := (to_Z a * 256 + to_Z b) * 4 in
      [b2a (n / 4096); b2a (n / 64 mod 64); b2a (n mod 64); of_Z BASE64_PAD]
  | a :: b :: c :: rest =>
      let n := to_Z a * 65536 + to_Z b * 256 + to_Z c in
      [b2a (n / 262144); b2a (n / 4096 mod 64); b2a (n / 64 mod 64);
       b2a (n mod 64)] ++ rfc4648_encode rest
  end.

(** The number of alphabet characters in a text. *)
Definition digits (cs : bytes) : Z :=
  Z.of_nat (length (List.filter is_digit cs)).

Definition no_pad (cs : bytes) : bool :=
  forallb (fun c => negb (is_pad c)) cs.

End Base64.

Import Bytes Base64.

(* ===================================================================== *)
(** ** Python values, exceptions and the state-and-exception monad *)
(* ===================================================================== *)

Module Py.

(** The values that reach [YBlob.set] and a [pycrdt.Map]: [None], [bool],
    [str], [bytes], [int], [float] (a binary64 number, by its IEEE 754
    description), and [PyObject] for an object of any other type that is
    neither a container nor a shared type of the substrate (a [bytearray],
    an instance of a class). Lists and dicts are not covered. *)
Inductive value :=
| PyNone
| PyBool (b : bool)
| PyStr (s : string)
| PyBytes (b : bytes)
| PyInt (z : Z)
| PyFloat (f : SpecFloat.spec_float)
| PyObject (id : nat).

(** [isinstance(value, bytes)] *)
Definition isinstance_bytes (v : value) : bool :=
  match v with PyBytes _ => true | _ => false end.

(** [isinstance(value, str)] *)
Definition isinstance_str (v : value) : bool :=
  match v with PyStr _ => true | _ => false end.

Inductive exn :=
| BinasciiError (e : binascii_error)  (* binascii.Error *)
| AttributeError (attr : string)
| ValueError
| TypeError
| PanicException. (* pyo3_runtime.PanicException *)

Inductive outcome (A : Type) :=
| Return (a : A)
| Raise (e : exn).
Arguments Return {A} a.
Arguments Raise {A} e.

Section Monad.
Context {St : Type}.

(** A method call runs on the object state [St]; it returns or raises,
    and in both cases leaves a state behind. *)
Definition M (A : Type) : Type := St -> outcome A * St.

Definition ret {A} (a : A) : M A := fun s => (Return a, s).
Definition raise {A} (e : exn) : M A := fun s => (Raise e, s).
Definition bind {A B} (m : M A) (k : A -> M B) : M B :=
  fun s =>
    match m s with
    | (Return a, s') => k a s'
    | (Raise e, s') => (Raise e, s')
    end.
Definition gets {A} (f : St -> A) : M A := fun s => (Return (f s), s).
Definition modify (f : St -> St) : M unit := fun s => (Return tt, f s).

Definition eval {A} (m : M A) (s : St) : outcome A := fst (m s).
Definition exec {A} (m : M A) (s : St) : St := snd (m s).
End Monad.
Arguments M St A : clear implicits.

End Py.

Import Py.

Declare Scope py_scope.
Delimit Scope py_scope with py.
Notation "'let*' x ':=' m 'in' k" := (bind m (fun x => k))
  (at level 10, x name, m at level 100, k at level 200,
   format "'[v' 'let*'  x  ':='  m  'in' '/' k ']'") : py_scope.
Notation "m '>>' k" := (bind m (fun _ => k))
  (at level 100, k at level 200, right associativity) : py_scope.
Local Open Scope py_scope.

(* ===================================================================== *)
(** ** The CRDT substrate: the two root maps of the [pycrdt.Doc] *)
(* ===================================================================== *)

Module Crdt.

(** The root nodes a [YBlob] holds: [self._ystate] and [self._ysource]. *)
Inductive Node := NState | NSource.

Definition Node_eqb (a b : Node) : bool :=
  match a, b with
  | NState, NState | NSource, NSource => true
  | _, _ => false
  end.

(** The name under which the document root holds the node. *)
Definition node_name (n : Node) : string :=
  match n with NState => "state" | NSource => "source" end.

(** A [pycrdt.Subscription] handle; distinct handles are distinct objects. *)
Definition Subscription := nat.

(** An application callable, known by its identity. *)
Definition Callback := nat.

(** [functools.partial(callback, label)] *)
Record Handler := partial { h_callback : Callback; h_label : string }.

(** The change description a map hands to its observers. *)
Record MapEvent := Event
  { ev_target : Node;
    ev_key : string;
    ev_old : option value;
    ev_new : value }.

(** One invocation [callback(label, event)] of an application callable. *)
Record Call := Called
  { c_callback : Callback; c_label : string; c_event : MapEvent }.

(** The state behind a [YBlob] instance: the contents of the two root maps,
    the handlers subscribed on each through the instance's map objects,
    the instance's [_subscriptions] dict (in insertion order), and the log
    of the application callbacks invoked so far. *)
Record Doc := MkDoc
  { ystate : gmap string value;
    ysource : gmap string value;
    state_observers : list (Subscription * Handler);
    source_observers : list (Subscription * Handler);
    next_subscription : Subscription;
    subscriptions : list (Node * Subscription);
    calls : list Call }.

Definition contents (n : Node) (d : Doc) : gmap string value :=
  match n with NState => ystate d | NSource => ysource d end.

Definition observers (n : Node) (d : Doc)
  : list (Subscription * Handler) :=
  match n with NState => state_observers d | NSource => source_observers d end.

Definition set_contents (n : Node) (m : gmap string value) (d : Doc) : Doc :=
  match n with
  | NState =>
      MkDoc m (ysource d) (state_observers d) (source_observers d)
        (next_subscription d) (subscriptions d) (calls d)
  | NSource =>
      MkDoc (ystate d) m (state_observers d) (source_observers d)
        (next_subscription d) (subscriptions d) (calls d)
  end.

Definition set_observers (n : Node) (l : list (Subscription * Handler))
    (d : Doc) : Doc :=
  match n with
  | NState =>
      MkDoc (ystate d) (ysource d) l (source_observers d)
        (next_subscription d) (subscriptions d) (calls d)
  | NSource =>
      MkDoc (ystate d) (ysource d) (state_observers d) l
        (next_subscription d) (subscriptions d) (calls d)
  end.

Definition set_subscriptions (l : list (Node * Subscription)) (d : Doc)
  : Doc :=
  MkDoc (ystate d) (ysource d) (state_observers d) (source_observers d)
    (next_subscription d) l (calls d).

Definition log_calls (l : list Call) (d : Doc) : Doc :=
  MkDoc (ystate d) (ysource d) (state_observers d) (source_observers d)
    (next_subscription d) (subscriptions d) (calls d ++ l).

(** Calling a handler [partial(callback, label)] on an event. *)
Definition invoke (ev : MapEvent) (h : Subscription * Handler) : Call :=
  Called (h_callback (snd h)) (h_label (snd h)) ev.

(** [node.get(key, default)] *)
Definition map_get (n : Node) (key : string) (default : value)
  : M Doc value :=
  gets (fun d => match contents n d !! key with
                 | Some v => v
                 | None => default
                 end).

Definition MAX_JS_NUMBER : Z := 2 ^ 53 - 1.

(** The integers that fit an [i64]. *)
Definition in_i64 (z : Z) : bool := (- 2 ^ 63 <=? z) && (z <? 2 ^ 63).

(** [v as f64] for an [i64]: the nearest binary64 number, ties to even. *)
Definition i64_as_f64 (z : Z) : SpecFloat.spec_float :=
  SpecFloat.binary_normalize 53 1024 z 0 false.

(** The conversion of a Python value to a value of the store (pycrdt's
    [py_to_any]) and the check of [Map.insert] on its result: [None],
    [bool], [str], [bytes] and [float] are kept; an [int] must fit an
    [i64], else the extraction panics, and is kept as an integer only
    above [MAX_JS_NUMBER], as a double otherwise; any other object is
    refused with [TypeError]. *)
Definition py_to_any (v : value) : exn + value :=
  match v with
  | PyNone | PyBool _ | PyStr _ | PyBytes _ | PyFloat _ => inr v
  | PyInt z =>
      if in_i64 z then
        inr (if MAX_JS_NUMBER <? z then PyInt z
             else PyFloat (i64_as_f64 z))
      else inl PanicException
  | PyObject _ => inl TypeError
  end.

(** [node[key] = v]: the value is converted first, and when that fails the
    exception leaves before anything is written. Otherwise it is one
    transaction on the node; when it commits, every observer of that node
    is called once with the event. *)
Definition map_setitem (n : Node) (key : string) (v : value)
  : M Doc unit :=
  match py_to_any v with
  | inl e => raise e
  | inr a =>
      modify (fun d =>
        let ev := Event n key (contents n d !! key) a in
        log_calls (map (invoke ev) (observers n d))
          (set_contents n (<[key := a]> (contents n d)) d))
  end.

(** [node.observe(handler)] returns a new subscription. *)
Definition node_observe (n : Node) (h : Handler) : M Doc Subscription :=
  fun d =>
    let sub := next_subscription d in
    let d' := set_observers n (observers n d ++ [(sub, h)]) d in
    (Return sub,
     MkDoc (ystate d') (ysource d') (state_observers d')
       (source_observers d') (S sub) (subscriptions d') (calls d')).

(** [list.remove(x)]: drops the first occurrence, [None] when absent. *)
Fixpoint list_remove (sub : Subscription)
    (l : list (Subscription * Handler))
  : option (list (Subscription * Handler)) :=
  match l with
  | [] => None
  | p :: rest =>
      if Nat.eqb (fst p) sub then Some rest
      else match list_remove sub rest with
           | Some rest' => Some (p :: rest')
           | None => None
           end
  end.

(** [node.unobserve(subscription)]: removes the handle from the node's
    subscription list, which raises [ValueError] when it is not there. *)
Definition node_unobserve (n : Node) (sub : Subscription) : M Doc unit :=
  fun d =>
    match list_remove sub (observers n d) with
    | Some l => (Return tt, set_observers n l d)
    | None => (Raise ValueError, d)
    end.

(** [dict[key] = v] on the insertion-ordered [_subscriptions] dict. *)
Fixpoint dict_set (k : Node) (v : Subscription)
    (l : list (Node * Subscription)) : list (Node * Subscription) :=
  match l with
  | [] => [(k, v)]
  | (k', v') :: rest =>
      if Node_eqb k k' then (k, v) :: rest
      else (k', v') :: dict_set k v rest
  end.

End Crdt.

Import Crdt.

(* ===================================================================== *)
(** ** The document type *)
(* ===================================================================== *)

Module YBlob.

(** Modelled from the spec: [YBaseDoc.__init__] (ybasedoc.py is not part
    of the sources). The base document owns the root [state] map and a
    table of active change-subscriptions, empty at construction. [st] and
    [src] are what the [ydoc] given to the constructor already holds
    under "state" and "source" (both empty for a new [Doc]); the undo
    manager, which no operation below reads, is left out. *)
Definition YBaseDoc_init (st src : gmap string value) : Doc :=
  MkDoc st src [] [] O [] [].

(** [YBlob.__init__]: [self._ysource = self._ydoc.get("source", type=Map)]
    binds the source map of the document. *)
Definition init (st src : gmap string value) : Doc := YBaseDoc_init st src.

(** Modelled from the spec: [YBaseDoc.unobserve] (ybasedoc.py is not part
    of the sources): "removes all active subscriptions registered by this
    document instance; safe to call when no subscriptions are active". *)
Fixpoint unobserve_items (items : list (Node * Subscription))
  : M Doc unit :=
  match items with
  | [] => ret tt
  | (k, v) :: rest => node_unobserve k v >> unobserve_items rest
  end.

Definition unobserve : M Doc unit :=
  let* items := gets subscriptions in
  unobserve_items items >>
  modify (set_subscriptions []).

(** [YBlob.version] *)
Definition version : M Doc string := ret "1.0.0"%string.

(** [str.encode()]; any other value has no such method here. *)
Definition encode (v : value) : M Doc bytes :=
  match v with
  | PyStr s => ret (str_encode s)
  | _ => raise (AttributeError "encode")
  end.

Definition lift_b64decode (b : bytes) : M Doc bytes :=
  match b64decode b with
  | inr data => ret data
  | inl e => raise (BinasciiError e)
  end.

(** [YBlob.get]: [base64.b64decode(v.encode())], where [v] is what
    [self._ysource.get] finds under "base64", the empty string by default. *)
Definition get : M Doc bytes :=
  let* v := map_get NSource "base64" (PyStr EmptyString) in
  let* b := encode v in
  lift_b64decode b.

(** [YBlob.set]:
    [if isinstance(value, bytes): value = base64.b64encode(value).decode()]
    [self._ysource["base64"] = value] *)
Definition set (value : value) : M Doc unit :=
  let value :=
    match value with
    | PyBytes b => PyStr (bytes_decode (b64encode b))
    | _ => value
    end in
  map_setitem NSource "base64" value.

(** [YBlob.observe] *)
Definition observe (callback : Callback) : M Doc unit :=
  unobserve >>
  let* s := node_observe NState (partial callback "state") in
  modify (fun d => set_subscriptions (dict_set NState s (subscriptions d)) d) >>
  let* s := node_observe NSource (partial callback "source") in
  modify (fun d => set_subscriptions (dict_set NSource s (subscriptions d)) d).

End YBlob.

Import YBlob.

(** *** Histories of a document *)

(** What a caller can do with a document; [OpStateSet] stands for a write
    to the [state] map (the base document's metadata). *)
Inductive Op :=
| OpVersion
| OpGet
| OpSet (v : value)
| OpObserve (cb : Callback)
| OpUnobserve
| OpStateSet (k : string) (v : value).

(** The state a call leaves behind, whether it returned or raised. *)
Definition run_op (o : Op) (d : Doc) : Doc :=
  match o with
  | OpVersion => exec version d
  | OpGet => exec get d
  | OpSet v => exec (set v) d
  | OpObserve cb => exec (observe cb) d
  | OpUnobserve => exec unobserve d
  | OpStateSet k v => exec (map_setitem NState k v) d
  end.

Definition run (ops : list Op) (d : Doc) : Doc :=
  fold_left (fun d o => run_op o d) ops d.

(** Reads and writes of the content, which leave subscriptions alone. *)
Inductive Access :=
| AVersion
| AGet
| ASet (v : value)
| AStateSet (k : string) (v : value).

Definition op_of (a : Access) : Op :=
  match a with
  | AVersion => OpVersion
  | AGet => OpGet
  | ASet v => OpSet v
  | AStateSet k v => OpStateSet k v
  end.

(* ===================================================================== *)
(** ** Predicates used in the statements and proofs *)
(* ===================================================================== *)

(** The value [set] assigns to [source["base64"]]. *)
Definition stored (v : value) : value :=
  match v with
  | PyBytes b => PyStr (bytes_decode (b64encode b))
  | _ => v
  end.

(** The invariant of the data model: [source["base64"]] is absent or holds
    valid base64 text. *)
Definition source_ok (d : Doc) : bool :=
  match ysource d !! "base64"%string with
  | None => true
  | Some (PyStr s) => is_valid_base64 s
  | Some _ => false
  end.

(** The calls that keep to the contract of [set]: bytes, or a string that
    is valid base64 already. *)
Definition conforming (o : Op) : bool :=
  match o with
  | OpSet (PyBytes _) => true
  | OpSet (PyStr s) => is_valid_base64 s
  | OpSet _ => false
  | _ => true
  end.

(** The subscriptions of a document are in one of two shapes: none at all,
    or one per node, each recorded in [_subscriptions]. *)
Definition tracked (d : Doc) : Prop :=
  (subscriptions d = [] /\ state_observers d = [] /\
   source_observers d = []) \/
  (exists a b hs hc,
      subscriptions d = [(NState, a); (NSource, b)] /\
      state_observers d = [(a, hs)] /\ source_observers d = [(b, hc)]).

(** The callback [cb] is the one subscribed, to both nodes. *)
Definition observing (cb : Callback) (d : Doc) : Prop :=
  exists a b,
    subscriptions d = [(NState, a); (NSource, b)] /\
    state_observers d = [(a, partial cb "state")] /\
    source_observers d = [(b, partial cb "source")].

(** The two tables are inverse to each other on the 64 digits, and no
    digit is the pad character. *)
Definition digit_ok (n : nat) : bool :=
  let c := to_Z (b2a (Z.of_nat n)) in
  negb (c =? BASE64_PAD) && (a2b c =? Z.of_nat n).

(** [leftchar = (leftchar << 8) | *bin_data] on an [unsigned int]. *)
Definition next_leftchar (lc : Z) (b : byte) : Z :=
  Z.lor (Z.shiftl lc 8 mod 2 ^ 32) (to_Z b).

(** What links the encoder, having read [data], to the decoder, having
    read the characters written so far: the decoder is in step, and the
    bits of the last byte that the encoder still holds back are the ones
    the decoder still misses. *)
Definition in_step (data : bytes) (est : b2a_state) : Prop :=
  exists dst,
    a2b_loop (A2B 0 0 0 []) (e_out est) = Next dst /\ pads dst = 0 /\
    ((e_leftbits est = 0 /\ quad_pos dst = 0 /\ bin_data dst = data) \/
     (exists data' b,
         data = data' ++ [b] /\ bin_data dst = data' /\
         ((e_leftbits est = 2 /\ quad_pos dst = 1 /\
           d_leftchar dst = to_Z b / 4 /\
           e_leftchar est mod 4 = to_Z b mod 4) \/
          (e_leftbits est = 4 /\ quad_pos dst = 2 /\
           d_leftchar dst = to_Z b / 16 /\
           e_leftchar est mod 16 = to_Z b mod 16)))).

(** What the encoder has written so far: digits only, as many (modulo 4)
    as the bytes read call for. *)
Definition written_ok (est : b2a_state) : Prop :=
  forallb is_digit (e_out est) = true /\
  ((e_leftbits est = 0 /\ Z.of_nat (length (e_out est)) mod 4 = 0) \/
   (e_leftbits est = 2 /\ Z.of_nat (length (e_out est)) mod 4 = 1) \/
   (e_leftbits est = 4 /\ Z.of_nat (length (e_out est)) mod 4 = 2)).

(** The operations that write the source map. *)
Definition writes_source (o : Op) : bool :=
  match o with OpSet _ => true | _ => false end.

(** The characters the decoder looks at: digits and pads. *)
Definition significant (c : byte) : bool := is_digit c || is_pad c.

(** The text with every other character taken out. *)
Definition strip (cs : bytes) : bytes := List.filter significant cs.

(** The text ends with a pad character. *)
Definition ends_with_pad (cs : bytes) : bool :=
  match rev cs with
  | d :: _ => is_pad d
  | [] => false
  end.

(** No handler is subscribed on either node. *)
Definition silent (d : Doc) : bool :=
  match state_observers d, source_observers d with
  | [], [] => true
  | _, _ => false
  end.

(* ===================================================================== *)
(** ** base64: the decoder undoes the encoder *)
(* ===================================================================== *)

Section Base64_facts.

Example b64encode_00_01_ff :
bytes_decode (b64encode ["000"; "001"; "255"]%byte) = "AAH/"%string.
Proof. vm_compute. reflexivity. Qed.

Lemma to_Z_range (b : byte) : 0 <= to_Z b < 256.
Proof.
  unfold to_Z. pose proof (Byte.to_N_bounded b). lia.
Qed.

Lemma of_Z_to_Z (b : byte) : of_Z (to_Z b) = b.
Proof.
  unfold of_Z. rewrite Z.mod_small by apply to_Z_range.
  unfold to_Z. rewrite N2Z.id, Byte.of_to_N. reflexivity.
Qed.

Lemma to_Z_of_Z (z : Z) : 0 <= z < 256 -> to_Z (of_Z z) = z.
Proof.
  intros Hz. unfold of_Z. rewrite Z.mod_small by lia.
  destruct (Byte.of_N (Z.to_N z)) as [b|] eqn:E.
  - apply Byte.to_of_N in E. unfold to_Z. rewrite E. lia.
  - apply Byte.of_N_None_iff in E. lia.
Qed.

Lemma digits_ok : forallb digit_ok (seq 0 64) = true.
Proof. vm_compute. reflexivity. Qed.

Lemma a2b_b2a (i : Z) :
  0 <= i < 64 ->
  (to_Z (b2a i) =? BASE64_PAD) = false /\ a2b (to_Z (b2a i)) = i.
Proof.
  intros Hi.
  pose proof (proj1 (forallb_forall digit_ok (seq 0 64)) digits_ok
                (Z.to_nat i)) as H.
  assert (Hin : In (Z.to_nat i) (seq 0 64)) by (apply in_seq; lia).
  apply H in Hin. unfold digit_ok in Hin.
  rewrite Z2Nat.id in Hin by lia.
  apply andb_prop in Hin as [H1 H2].
  split.
  - now apply negb_true_iff in H1.
  - now apply Z.eqb_eq in H2.
Qed.

(** Bit operations on small operands, as arithmetic. *)
Lemma lor_shiftl_low (x y k : Z) :
  0 <= k -> 0 <= y < 2 ^ k -> Z.lor (Z.shiftl x k) y = x * 2 ^ k + y.
Proof.
  intros Hk Hy.
  assert (Hdisj : Z.land (Z.shiftl x k) y = 0).
  { apply Z.bits_inj'. intros n Hn.
    rewrite Z.land_spec, Z.bits_0.
    destruct (Z.lt_ge_cases n k) as [Hlt|Hge].
    - rewrite Z.shiftl_spec_low by lia. reflexivity.
    - destruct (Z.eq_dec y 0) as [->|Hy0].
      + rewrite Z.bits_0. apply andb_false_r.
      + rewrite (Z.bits_above_log2 y n), andb_false_r; [reflexivity|lia|].
        apply Z.lt_le_trans with k; [|lia].
        apply Z.log2_lt_pow2; lia. }
  rewrite <- Z.lxor_lor, <- Z.add_nocarry_lxor by exact Hdisj.
  rewrite Z.shiftl_mul_pow2 by lia. reflexivity.
Qed.

Lemma land_63 (x : Z) : Z.land x 63 = x mod 64.
Proof. change 63 with (Z.ones 6). now rewrite Z.land_ones. Qed.

Lemma land_15 (x : Z) : Z.land x 15 = x mod 16.
Proof. change 15 with (Z.ones 4). now rewrite Z.land_ones. Qed.

Lemma land_3 (x : Z) : Z.land x 3 = x mod 4.
Proof. change 3 with (Z.ones 2). now rewrite Z.land_ones. Qed.

Lemma next_leftchar_eq (lc : Z) (b : byte) :
  next_leftchar lc b = 256 * (lc mod 2 ^ 24) + to_Z b.
Proof.
  unfold next_leftchar. pose proof (to_Z_range b) as Hb.
  rewrite Z.shiftl_mul_pow2 by lia.
  replace (lc * 2 ^ 8 mod 2 ^ 32) with (Z.shiftl (lc mod 2 ^ 24) 8).
  - rewrite lor_shiftl_low by (change (2 ^ 8) with 256; lia).
    change (2 ^ 8) with 256. lia.
  - rewrite Z.shiftl_mul_pow2 by lia.
    change (2 ^ 32) with (2 ^ 24 * 2 ^ 8).
    rewrite Z.mul_mod_distr_r by lia. reflexivity.
Qed.

Ltac bits_to_arith :=
  rewrite ?land_63, ?land_15, ?land_3;
  rewrite ?Z.shiftr_div_pow2, ?Z.shiftl_mul_pow2 by lia;
  rewrite ?next_leftchar_eq;
  change (2 ^ 2) with 4; change (2 ^ 4) with 16; change (2 ^ 6) with 64;
  change (2 ^ 24) with 16777216.

Ltac arith := Z.div_mod_to_equations; lia.

(** The encoder's loop body, by the number of bits it holds back. *)
Lemma b2a_step_0 lc out b :
  b2a_step (B2A lc 0 out) b =
  B2A (next_leftchar lc b) 2 (out ++ [b2a (to_Z b / 4)]).
Proof.
  unfold b2a_step. cbn [e_leftchar e_leftbits e_out].
  change (Z.lor (Z.shiftl lc 8 mod 2 ^ 32) (to_Z b))
    with (next_leftchar lc b).
  change (Z.to_nat (0 + 8)) with 8%nat. cbn [b2a_while].
  change (6 <=? 0 + 8) with true. change (0 + 8 - 6) with 2.
  change (6 <=? 2) with false. cbv iota.
  do 4 f_equal. pose proof (to_Z_range b).
  bits_to_arith. arith.
Qed.

Lemma b2a_step_2 lc out b :
  b2a_step (B2A lc 2 out) b =
  B2A (next_leftchar lc b) 4
    (out ++ [b2a (16 * (lc mod 4) + to_Z b / 16)]).
Proof.
  unfold b2a_step. cbn [e_leftchar e_leftbits e_out].
  change (Z.lor (Z.shiftl lc 8 mod 2 ^ 32) (to_Z b))
    with (next_leftchar lc b).
  change (Z.to_nat (2 + 8)) with 10%nat. cbn [b2a_while].
  change (6 <=? 2 + 8) with true. change (2 + 8 - 6) with 4.
  change (6 <=? 4) with false. cbv iota.
  do 4 f_equal. pose proof (to_Z_range b).
  bits_to_arith. arith.
Qed.

Lemma b2a_step_4 lc out b :
  b2a_step (B2A lc 4 out) b =
  B2A (next_leftchar lc b) 0
    (out ++ [b2a (4 * (lc mod 16) + to_Z b / 64); b2a (to_Z b mod 64)]).
Proof.
  unfold b2a_step. cbn [e_leftchar e_leftbits e_out].
  change (Z.lor (Z.shiftl lc 8 mod 2 ^ 32) (to_Z b))
    with (next_leftchar lc b).
  change (Z.to_nat (4 + 8)) with 12%nat. cbn [b2a_while].
  change (6 <=? 4 + 8) with true. change (4 + 8 - 6) with 6.
  change (6 <=? 6) with true. change (6 - 6) with 0.
  change (6 <=? 0) with false. cbv iota.
  rewrite <- app_assoc. cbn [app].
  pose proof (to_Z_range b).
  f_equal. f_equal. f_equal; [|f_equal]; f_equal.
  - bits_to_arith. arith.
  - rewrite Z.shiftr_0_r. bits_to_arith. arith.
Qed.

(** The decoder's loop body on a digit, by its position in the quad. *)
Lemma a2b_step_digit (st : a2b_state) (i : Z) :
  0 <= i < 64 ->
  a2b_step st (b2a i) =
  if quad_pos st =? 0 then Next (A2B 1 i 0 (bin_data st))
  else if quad_pos st =? 1 then
    Next (A2B 2 (i mod 16) 0
            (bin_data st ++
             [of_Z (Z.lor (Z.shiftl (d_leftchar st) 2) (i / 16))]))
  else if quad_pos st =? 2 then
    Next (A2B 3 (i mod 4) 0
            (bin_data st ++
             [of_Z (Z.lor (Z.shiftl (d_leftchar st) 4) (i / 4))]))
  else if quad_pos st =? 3 then
    Next (A2B 0 0 0
            (bin_data st ++ [of_Z (Z.lor (Z.shiftl (d_leftchar st) 6) i)]))
  else Next (A2B (quad_pos st) (d_leftchar st) 0 (bin_data st)).
Proof.
  intros Hi. destruct (a2b_b2a i Hi) as [Hpad Htab].
  unfold a2b_step. rewrite Hpad, Htab.
  replace (64 <=? i) with false by (symmetry; apply Z.leb_gt; lia).
  bits_to_arith. reflexivity.
Qed.

Lemma a2b_step_pad (st : a2b_state) :
  a2b_step st (of_Z BASE64_PAD) =
  if 2 <=? quad_pos st then
    let st' := A2B (quad_pos st) (d_leftchar st) (pads st + 1)
                   (bin_data st) in
    if 4 <=? quad_pos st + (pads st + 1) then Done st' else Next st'
  else Next st.
Proof. reflexivity. Qed.

Lemma a2b_loop_app (st : a2b_state) (xs ys : bytes) :
  a2b_loop st (xs ++ ys) =
  match a2b_loop st xs with
  | Next st' => a2b_loop st' ys
  | Done st' => Done st'
  end.
Proof.
  revert st. induction xs as [|x xs IH]; intros st; cbn [a2b_loop app].
  - reflexivity.
  - destruct (a2b_step st x); [apply IH | reflexivity].
Qed.

Lemma recombine (x y k : Z) (b : byte) :
  0 <= k -> 0 <= y < 2 ^ k -> x * 2 ^ k + y = to_Z b ->
  of_Z (Z.lor (Z.shiftl x k) y) = b.
Proof.
  intros Hk Hy Hb. rewrite lor_shiftl_low, Hb by assumption.
  apply of_Z_to_Z.
Qed.

Lemma b2a_in_step (data : bytes) :
  in_step data (fold_left b2a_step data (B2A 0 0 [])).
Proof.
  induction data as [|b data IH] using rev_ind.
  - exists (A2B 0 0 0 []). cbn.
    split; [reflexivity|]. split; [reflexivity|]. left. auto.
  - rewrite fold_left_app. cbn [fold_left].
    destruct (fold_left b2a_step data (B2A 0 0 [])) as [lc lb out].
    destruct IH as ([qp ld p bd] & Hloop & Hp & Hcase).
    cbn [e_out e_leftbits e_leftchar quad_pos d_leftchar pads bin_data] in *.
    pose proof (to_Z_range b) as Hb.
    destruct Hcase as [(-> & -> & ->) | (data' & b0 & -> & -> & Hcase)].
    + (* no bits held back *)
      rewrite b2a_step_0. unfold in_step.
      cbn [e_out e_leftbits e_leftchar].
      eexists. rewrite a2b_loop_app, Hloop. cbn [a2b_loop].
      rewrite a2b_step_digit by arith.
      cbn [quad_pos d_leftchar pads bin_data]. cbn [Z.eqb].
      split; [reflexivity|]. split; [reflexivity|].
      cbn [quad_pos d_leftchar pads bin_data].
      right. exists data, b.
      split; [reflexivity|]. split; [reflexivity|]. left.
      repeat split. rewrite next_leftchar_eq. arith.
    + destruct Hcase as [(-> & -> & -> & Hlc) | (-> & -> & -> & Hlc)].
      * (* two bits held back *)
        rewrite b2a_step_2. unfold in_step.
        cbn [e_out e_leftbits e_leftchar].
        eexists. rewrite a2b_loop_app, Hloop. cbn [a2b_loop].
        rewrite a2b_step_digit by arith.
        cbn [quad_pos d_leftchar pads bin_data]. cbn [Z.eqb Pos.eqb].
        split; [reflexivity|]. split; [reflexivity|].
        cbn [quad_pos d_leftchar pads bin_data].
        right. exists (data' ++ [b0]), b.
        split; [reflexivity|]. split.
        { f_equal. f_equal. pose proof (to_Z_range b0).
          apply recombine; [lia| |]; change (2 ^ 2) with 4; arith. }
        right. repeat split; [arith|].
        rewrite next_leftchar_eq. arith.
      * (* four bits held back *)
        rewrite b2a_step_4. unfold in_step.
        cbn [e_out e_leftbits e_leftchar].
        eexists. rewrite a2b_loop_app, Hloop. cbn [a2b_loop].
        rewrite a2b_step_digit by arith.
        cbn [quad_pos d_leftchar pads bin_data]. cbn [Z.eqb Pos.eqb].
        rewrite a2b_step_digit by arith.
        cbn [quad_pos d_leftchar pads bin_data]. cbn [Z.eqb Pos.eqb].
        split; [reflexivity|]. split; [reflexivity|].
        cbn [quad_pos d_leftchar pads bin_data].
        left. repeat split.
        pose proof (to_Z_range b0).
        f_equal; [f_equal|]; f_equal.
        { apply recombine; [lia| |]; change (2 ^ 4) with 16; arith. }
        { apply recombine; [lia| |]; change (2 ^ 6) with 64; arith. }
Qed.

Lemma a2b_loop_cons (st : a2b_state) (c : byte) (rest : bytes) :
  a2b_loop st (c :: rest) =
  match a2b_step st c with
  | Next st' => a2b_loop st' rest
  | Done st' => Done st'
  end.
Proof. reflexivity. Qed.

Lemma a2b_loop_pad_pad (ld : Z) (out : bytes) :
  a2b_loop (A2B 2 ld 0 out) [of_Z BASE64_PAD; of_Z BASE64_PAD] =
  Done (A2B 2 ld 2 out).
Proof. reflexivity. Qed.

Lemma a2b_loop_pad (ld : Z) (out : bytes) :
  a2b_loop (A2B 3 ld 0 out) [of_Z BASE64_PAD] = Done (A2B 3 ld 1 out).
Proof. reflexivity. Qed.

(** Round trip on the byte level. *)
Lemma b64decode_b64encode (data : bytes) :
  b64decode (b64encode data) = inr data.
Proof.
  unfold b64decode, b64encode, a2b_base64, b2a_base64.
  destruct (b2a_in_step data) as ([qp ld p bd] & Hloop & Hp & Hcase).
  destruct (fold_left b2a_step data (B2A 0 0 [])) as [lc lb out].
  cbn [e_out e_leftbits e_leftchar quad_pos d_leftchar pads bin_data] in *.
  unfold b2a_finish. cbn [e_out e_leftbits e_leftchar].
  destruct Hcase as [(-> & -> & ->) | (data' & b0 & -> & -> & Hcase)].
  - cbn [Z.eqb]. rewrite Hloop. reflexivity.
  - pose proof (to_Z_range b0).
    destruct Hcase as [(-> & -> & -> & Hlc) | (-> & -> & -> & Hlc)].
    + cbn [Z.eqb Pos.eqb]. subst p.
      rewrite a2b_loop_app, Hloop, a2b_loop_cons.
      bits_to_arith.
      rewrite a2b_step_digit by arith.
      cbn [quad_pos d_leftchar pads bin_data]. cbn [Z.eqb Pos.eqb].
      rewrite a2b_loop_pad_pad. cbn [bin_data].
      f_equal. f_equal. f_equal.
      apply recombine; [lia| |]; change (2 ^ 2) with 4; arith.
    + cbn [Z.eqb Pos.eqb]. subst p.
      rewrite a2b_loop_app, Hloop, a2b_loop_cons.
      bits_to_arith.
      rewrite a2b_step_digit by arith.
      cbn [quad_pos d_leftchar pads bin_data]. cbn [Z.eqb Pos.eqb].
      rewrite a2b_loop_pad. cbn [bin_data].
      f_equal. f_equal. f_equal.
      apply recombine; [lia| |]; change (2 ^ 4) with 16; arith.
Qed.

Lemma is_digit_b2a (i : Z) : 0 <= i < 64 -> is_digit (b2a i) = true.
Proof.
  intros Hi. destruct (a2b_b2a i Hi) as [Hpad Htab].
  unfold is_digit, is_pad. rewrite Hpad, Htab. cbn [negb andb].
  apply Z.ltb_lt. lia.
Qed.

Lemma b2a_written_ok (data : bytes) :
  written_ok (fold_left b2a_step data (B2A 0 0 [])).
Proof.
  induction data as [|b data IH] using rev_ind.
  - split; [reflexivity|]. left. split; reflexivity.
  - rewrite fold_left_app. cbn [fold_left].
    destruct (fold_left b2a_step data (B2A 0 0 [])) as [lc lb out].
    destruct IH as [Hdig Hlen]. cbn [e_out e_leftbits] in *.
    pose proof (to_Z_range b) as Hb.
    destruct Hlen as [(-> & Hlen) | [(-> & Hlen) | (-> & Hlen)]].
    + rewrite b2a_step_0. split; cbn [e_out e_leftbits].
      * rewrite forallb_app, Hdig. cbn [forallb andb].
        rewrite is_digit_b2a by arith. reflexivity.
      * right. left. split; [reflexivity|].
        rewrite length_app. cbn [length]. arith.
    + rewrite b2a_step_2. split; cbn [e_out e_leftbits].
      * rewrite forallb_app, Hdig. cbn [forallb andb].
        rewrite is_digit_b2a by arith. reflexivity.
      * right. right. split; [reflexivity|].
        rewrite length_app. cbn [length]. arith.
    + rewrite b2a_step_4. split; cbn [e_out e_leftbits].
      * rewrite forallb_app, Hdig. cbn [forallb andb].
        rewrite !is_digit_b2a by arith. reflexivity.
      * left. split; [reflexivity|].
        rewrite length_app. cbn [length]. arith.
Qed.

(** The streaming encoder writes what RFC 4648 describes. *)
Lemma b2a_fold_rfc4648 (n : nat) :
  forall (data : bytes) (lc : Z) (out : bytes),
    (length data <= n)%nat ->
    b2a_finish (fold_left b2a_step data (B2A lc 0 out))
    = out ++ rfc4648_encode data.
Proof.
  induction n as [|n IH]; intros data lc out Hlen.
  - destruct data; [|cbn [length] in Hlen; lia].
    cbn. now rewrite app_nil_r.
  - destruct data as [|a [|b [|c rest]]].
    + cbn. now rewrite app_nil_r.
    + pose proof (to_Z_range a).
      cbn [fold_left]. rewrite b2a_step_0. unfold b2a_finish.
      cbn [e_out e_leftbits e_leftchar Z.eqb Pos.eqb rfc4648_encode].
      rewrite <- app_assoc. cbn [app]. bits_to_arith.
      do 2 f_equal; [|f_equal]; f_equal; arith.
    + pose proof (to_Z_range a). pose proof (to_Z_range b).
      cbn [fold_left]. rewrite b2a_step_0, b2a_step_2. unfold b2a_finish.
      cbn [e_out e_leftbits e_leftchar Z.eqb Pos.eqb rfc4648_encode].
      rewrite <- !app_assoc. cbn [app]. bits_to_arith.
      do 2 f_equal; [|f_equal; [|f_equal]]; f_equal; arith.
    + pose proof (to_Z_range a). pose proof (to_Z_range b).
      pose proof (to_Z_range c).
      cbn [fold_left]. rewrite b2a_step_0, b2a_step_2, b2a_step_4.
      rewrite IH by (cbn [length] in Hlen; lia).
      cbn [rfc4648_encode]. rewrite <- !app_assoc. cbn [app].
      bits_to_arith.
      do 2 f_equal; [|f_equal; [|f_equal; [|f_equal]]]; f_equal; arith.
Qed.

Lemma b64encode_rfc4648 (data : bytes) :
  b64encode data = rfc4648_encode data.
Proof.
  unfold b64encode, b2a_base64.
  now rewrite (b2a_fold_rfc4648 (length data)).
Qed.

Lemma forallb_rev {A} (f : A -> bool) (l : list A) :
  forallb f (rev l) = forallb f l.
Proof.
  induction l as [|x l IH]; [reflexivity|].
  cbn [rev forallb]. rewrite forallb_app, IH. cbn [forallb].
  destruct (f x), (forallb f l); reflexivity.
Qed.

(** The encoder writes valid base64 text. *)
Lemma b64encode_valid (data : bytes) :
  valid_base64_bytes (b64encode data) = true.
Proof.
  unfold b64encode, b2a_base64, b2a_finish.
  destruct (b2a_written_ok data) as [Hdig Hlen].
  destruct (fold_left b2a_step data (B2A 0 0 [])) as [lc lb out].
  cbn [e_out e_leftbits e_leftchar] in *.
  unfold valid_base64_bytes.
  destruct Hlen as [(-> & Hlen) | [(-> & Hlen) | (-> & Hlen)]];
    cbn [Z.eqb Pos.eqb].
  - rewrite Hlen. cbn [Z.eqb andb].
    rewrite <- forallb_rev in Hdig. rewrite <- length_rev in Hlen.
    destruct (rev out) as [|d [|c rest]]; [reflexivity| |].
    + cbn [length] in Hlen. arith.
    + cbn [forallb] in Hdig.
      apply andb_prop in Hdig as [Hd Hdig].
      apply andb_prop in Hdig as [Hc Hdig].
      rewrite Hd, Hc, Hdig. reflexivity.
  - rewrite length_app. cbn [length].
    replace (Z.of_nat (length out + 3) mod 4) with 0 by arith.
    rewrite rev_app_distr. cbn [rev app Z.eqb andb forallb].
    rewrite forallb_rev, Hdig. bits_to_arith.
    rewrite is_digit_b2a by arith. reflexivity.
  - rewrite length_app. cbn [length].
    replace (Z.of_nat (length out + 2) mod 4) with 0 by arith.
    rewrite rev_app_distr. cbn [rev app Z.eqb andb forallb].
    bits_to_arith.
    rewrite forallb_rev, Hdig, is_digit_b2a by arith. reflexivity.
Qed.

(** A character that is neither a digit nor the pad is passed over. *)
Lemma a2b_step_other (st : a2b_state) (c : byte) :
  is_pad c = false -> is_digit c = false -> a2b_step st c = Next st.
Proof.
  unfold is_digit, is_pad, a2b_step. intros -> Hd.
  cbn [negb andb] in Hd. apply Z.ltb_ge in Hd.
  now replace (64 <=? a2b (to_Z c)) with true
    by (symmetry; apply Z.leb_le; lia).
Qed.

Lemma digits_cons (c : byte) (cs : bytes) :
  digits (c :: cs) = (if is_digit c then 1 else 0) + digits cs.
Proof.
  unfold digits. cbn [List.filter].
  destruct (is_digit c); cbn [length]; lia.
Qed.

(** Without pad characters the decoder never takes its early exit, and
    its position in the quad counts the digits read; every other
    character is passed over. *)
Lemma a2b_loop_no_pad (data : bytes) (st : a2b_state) :
  no_pad data = true -> 0 <= quad_pos st < 4 ->
  exists st', a2b_loop st data = Next st' /\
              quad_pos st' = (quad_pos st + digits data) mod 4.
Proof.
  revert st. induction data as [|c data IH]; intros st Hpad Hqp.
  - exists st. split; [reflexivity|]. unfold digits. cbn. arith.
  - cbn [no_pad forallb] in Hpad. apply andb_prop in Hpad as [Hc Hpad].
    apply negb_true_iff in Hc. rewrite a2b_loop_cons, digits_cons.
    unfold a2b_step, is_digit. unfold is_pad in Hc. unfold is_pad.
    rewrite Hc. cbn [negb andb].
    destruct (Z.leb_spec 64 (a2b (to_Z c))) as [Hge|Hlt].
    + replace (a2b (to_Z c) <? 64) with false
        by (symmetry; apply Z.ltb_ge; lia).
      destruct (IH st Hpad Hqp) as (st' & Hloop & Hq).
      exists st'. split; [exact Hloop|]. rewrite Hq. f_equal.
    + replace (a2b (to_Z c) <? 64) with true
        by (symmetry; apply Z.ltb_lt; lia).
      destruct (Z.eqb_spec (quad_pos st) 0) as [E0|N0];
        [|destruct (Z.eqb_spec (quad_pos st) 1) as [E1|N1];
          [|destruct (Z.eqb_spec (quad_pos st) 2) as [E2|N2];
            [|destruct (Z.eqb_spec (quad_pos st) 3) as [E3|N3];
              [|lia]]]];
        match goal with
        | |- context [a2b_loop ?s data] =>
            destruct (IH s Hpad) as (st' & Hloop & Hq);
            [cbn [quad_pos]; lia|];
            exists st'; split; [exact Hloop|];
            rewrite Hq; cbn [quad_pos]; arith
        end.
Qed.

(** On text without pad characters, decoding fails exactly when the
    number of digits is not a multiple of four. *)
Lemma b64decode_no_pad (data : bytes) :
  no_pad data = true ->
  if digits data mod 4 =? 0
  then exists out, b64decode data = inr out
  else exists e, b64decode data = inl e.
Proof.
  intros Hpad. unfold b64decode, a2b_base64.
  destruct (a2b_loop_no_pad data (A2B 0 0 0 []) Hpad)
    as (st' & -> & Hq); [cbn [quad_pos]; lia|].
  cbn [quad_pos] in Hq. rewrite Z.add_0_l in Hq. rewrite Hq.
  destruct (digits data mod 4 =? 0); [eauto|].
  destruct (digits data mod 4 =? 1); eauto.
Qed.

End Base64_facts.

(* ===================================================================== *)
(** ** The document: content *)
(* ===================================================================== *)

Section Content.

Lemma str_encode_bytes_decode (b : bytes) : str_encode (bytes_decode b) = b.
Proof. apply list_byte_of_string_of_list_byte. Qed.

Lemma get_eq (d : Doc) :
  get d =
  match ysource d !! "base64"%string with
  | None => (Return [], d)
  | Some (PyStr s) =>
      match b64decode (str_encode s) with
      | inr data => (Return data, d)
      | inl e => (Raise (BinasciiError e), d)
      end
  | Some _ => (Raise (AttributeError "encode"), d)
  end.
Proof.
  unfold get, bind, map_get, gets, encode, lift_b64decode, ret, raise.
  cbn [contents].
  destruct (ysource d !! "base64"%string) as [[| |s| | | |]|]; try reflexivity.
  destruct (b64decode (str_encode s)); reflexivity.
Qed.

Lemma set_eq (v : value) (d : Doc) :
  set v d = map_setitem NSource "base64" (stored v) d.
Proof. destruct v; reflexivity. Qed.

Lemma map_setitem_eq (n : Node) (k : string) (v : value) (d : Doc) :
  map_setitem n k v d =
  match py_to_any v with
  | inr a =>
      (Return tt,
       log_calls
         (map (invoke (Event n k (contents n d !! k) a)) (observers n d))
         (set_contents n (<[k := a]> (contents n d)) d))
  | inl e => (Raise e, d)
  end.
Proof. unfold map_setitem. destruct (py_to_any v); reflexivity. Qed.

Lemma ysource_set_any (v : value) (d : Doc) :
  ysource (exec (set v) d) =
  match py_to_any (stored v) with
  | inr a => <["base64"%string := a]> (ysource d)
  | inl _ => ysource d
  end.
Proof.
  unfold exec. rewrite set_eq, map_setitem_eq.
  destruct (py_to_any (stored v)); reflexivity.
Qed.

Lemma ysource_set (v : value) (d : Doc) :
  isinstance_bytes v || isinstance_str v = true ->
  ysource (exec (set v) d) = <["base64"%string := stored v]> (ysource d).
Proof.
  intros H. rewrite ysource_set_any. destruct v; try discriminate H;
    reflexivity.
Qed.

Lemma eval_set (v : value) (d : Doc) :
  isinstance_bytes v || isinstance_str v = true ->
  eval (set v) d = Return tt.
Proof.
  intros H. unfold eval. rewrite set_eq, map_setitem_eq.
  destruct v; try discriminate H; reflexivity.
Qed.

End Content.

(* ===================================================================== *)
(** ** Claims about the content *)
(* ===================================================================== *)

(** C1. Round trip: for every byte sequence [b] and every document,
    [set(b)] returns and a following [get()] returns exactly [b]. *)
Theorem get_after_set_bytes (d : Doc) (b : bytes) :
  eval (set (PyBytes b)) d = Return tt /\
  eval get (exec (set (PyBytes b)) d) = Return b /\
  eval (set (PyBytes b) >> get) d = Return b.
Proof.
  assert (H : get (exec (set (PyBytes b)) d)
              = (Return b, exec (set (PyBytes b)) d)).
  { rewrite get_eq, ysource_set, lookup_insert_eq by reflexivity. cbn [stored].
    rewrite str_encode_bytes_decode, b64decode_b64encode. reflexivity. }
  split; [now apply eval_set|]. split.
  - unfold eval. rewrite H. reflexivity.
  - unfold eval, bind. unfold exec in H.
    destruct (set (PyBytes b) d) as [[[]|e] d'] eqn:E.
    + cbn [snd] in H. rewrite H. reflexivity.
    + pose proof (eval_set (PyBytes b) d eq_refl) as He.
      unfold eval in He.
      rewrite E in He. discriminate.
Qed.

(** C2, as stated, fails: the stored text ["AAH/!"] is not valid base64,
    yet [get()] returns three bytes and raises nothing. *)
Lemma get_invalid_text_returns :
  ysource (exec (set (PyStr "AAH/!")) (init ∅ ∅)) !! "base64"%string
  = Some (PyStr "AAH/!") /\
  is_valid_base64 "AAH/!" = false /\
  eval get (exec (set (PyStr "AAH/!")) (init ∅ ∅))
  = Return [x00; x01; xff].
Proof. vm_compute. auto. Qed.

(** C2, amended. For a stored string without pad characters, [get()]
    raises [binascii.Error] when the number of its base64-alphabet
    characters is not a multiple of four, and returns otherwise; the
    document is left as it was. Characters outside the alphabet are passed
    over by the decoder, not rejected. *)
Theorem get_raises_on_bad_length (d : Doc) (s : string) :
  ysource d !! "base64"%string = Some (PyStr s) ->
  no_pad (str_encode s) = true ->
  (digits (str_encode s) mod 4 <> 0 ->
   exists e, get d = (Raise (BinasciiError e), d)) /\
  (digits (str_encode s) mod 4 = 0 ->
   exists out, get d = (Return out, d)).
Proof.
  intros Hs Hpad. rewrite get_eq, Hs.
  pose proof (b64decode_no_pad (str_encode s) Hpad) as H.
  split; intros Hn.
  - apply Z.eqb_neq in Hn. rewrite Hn in H.
    destruct H as [e ->]. eauto.
  - apply Z.eqb_eq in Hn. rewrite Hn in H.
    destruct H as [out ->]. eauto.
Qed.

Lemma get_raises_on_bad_length_witness :
  exists e,
    get (exec (set (PyStr "AAH")) (init ∅ ∅))
    = (Raise (BinasciiError e), exec (set (PyStr "AAH")) (init ∅ ∅)).
Proof.
  refine (proj1 (get_raises_on_bad_length
                   (exec (set (PyStr "AAH")) (init ∅ ∅)) "AAH" _ _) _).
  - reflexivity.
  - reflexivity.
  - vm_compute. discriminate.
Defined.

(** After a complete padded quad the decoder stops reading: what follows
    is dropped without an error. *)
Example get_drops_text_after_padding :
  eval get (exec (set (PyStr "AA==AH/")) (init ∅ ∅)) = Return [x00].
Proof. vm_compute. reflexivity. Qed.




(** [set(5)] leaves the double [5.0], which is [5 * 2^50 * 2^-50], in the
    field; [set(2**53)] leaves the integer. *)
Example set_int_is_stored_as_double :
  eval (set (PyInt 5)) (init ∅ ∅) = Return tt /\
  ysource (exec (set (PyInt 5)) (init ∅ ∅)) !! "base64"%string
  = Some (PyFloat (SpecFloat.S754_finite false (5 * 2 ^ 50) (-50))) /\
  ysource (exec (set (PyInt (2 ^ 53))) (init ∅ ∅)) !! "base64"%string
  = Some (PyInt (2 ^ 53)).
Proof. vm_compute. auto. Qed.

(** [set(2**64)] panics, and [set] of an object the map cannot convert
    raises [TypeError]; the field keeps what it held. *)
Example set_refused_values :
  set (PyInt (2 ^ 64)) (exec (set (PyStr "aGk=")) (init ∅ ∅))
  = (Raise PanicException, exec (set (PyStr "aGk=")) (init ∅ ∅)) /\
  set (PyObject 0) (exec (set (PyStr "aGk=")) (init ∅ ∅))
  = (Raise TypeError, exec (set (PyStr "aGk=")) (init ∅ ∅)) /\
  eval get (exec (set (PyObject 0)) (exec (set (PyStr "aGk=")) (init ∅ ∅)))
  = Return (str_encode "hi").
Proof. vm_compute. auto. Qed.

Section Frame.

(** Subscribing and unsubscribing leave the content alone. *)
Lemma node_unobserve_ysource n sub d :
  ysource (snd (node_unobserve n sub d)) = ysource d.
Proof.
  unfold node_unobserve.
  destruct (list_remove sub (observers n d)); [|reflexivity].
  destruct n; reflexivity.
Qed.

Lemma unobserve_items_ysource items d :
  ysource (snd (unobserve_items items d)) = ysource d.
Proof.
  revert d. induction items as [|[k v] items IH]; intros d.
  - reflexivity.
  - cbn [unobserve_items]. unfold bind.
    pose proof (node_unobserve_ysource k v d) as H.
    destruct (node_unobserve k v d) as [[[]|e] d']; cbn [snd] in *.
    + rewrite IH. exact H.
    + exact H.
Qed.

Lemma unobserve_ysource d : ysource (exec unobserve d) = ysource d.
Proof.
  unfold exec, unobserve, bind, gets, modify.
  pose proof (unobserve_items_ysource (subscriptions d) d) as H.
  destruct (unobserve_items (subscriptions d) d) as [[[]|e] d'];
    cbn [snd] in *; exact H.
Qed.

Lemma observe_ysource cb d : ysource (exec (observe cb) d) = ysource d.
Proof.
  unfold exec, observe. unfold bind at 1.
  pose proof (unobserve_ysource d) as H. unfold exec in H.
  destruct (unobserve d) as [[[]|e] d']; cbn [snd] in *; [|exact H].
  rewrite <- H. reflexivity.
Qed.

Lemma get_state d : exec get d = d.
Proof.
  unfold exec. rewrite get_eq.
  destruct (ysource d !! "base64"%string) as [[| |s| | | |]|]; try reflexivity.
  destruct (b64decode (str_encode s)); reflexivity.
Qed.

End Frame.

(** C4, as stated, fails: [set] on a string stores it unexamined, here a
    text that is not base64, in a document that satisfied the invariant. *)
Lemma set_str_breaks_invariant :
  source_ok (init ∅ ∅) = true /\
  ysource (exec (set (PyStr "!")) (init ∅ ∅)) !! "base64"%string
  = Some (PyStr "!") /\
  is_valid_base64 "!" = false /\
  source_ok (exec (set (PyStr "!")) (init ∅ ∅)) = false.
Proof. vm_compute. auto. Qed.

Lemma run_op_source_ok (d : Doc) (o : Op) :
  source_ok d = true -> conforming o = true -> source_ok (run_op o d) = true.
Proof.
  intros Hd Ho. destruct o as [| |v|cb| |k v]; cbn [run_op].
  - exact Hd.
  - rewrite get_state. exact Hd.
  - destruct v as [|b|s|b|z|f|o]; cbn [conforming] in Ho;
      try discriminate; unfold source_ok;
      rewrite ysource_set, lookup_insert_eq by reflexivity;
      cbn [stored].
    + exact Ho.
    + unfold is_valid_base64. rewrite str_encode_bytes_decode.
      apply b64encode_valid.
  - unfold source_ok. rewrite observe_ysource. exact Hd.
  - unfold source_ok. rewrite unobserve_ysource. exact Hd.
  - unfold source_ok, exec. rewrite map_setitem_eq.
    destruct (py_to_any v); exact Hd.
Qed.

(** C4, amended. The invariant ([source["base64"]] is absent or holds
    valid base64 text) is kept through every history of operations in
    which each [set] is given bytes or a string that is valid base64:
    [set] of bytes always stores valid base64 text, [set] of a string
    stores the string as it is, and the other operations do not write the
    source map. *)
Theorem source_ok_preserved (d : Doc) (ops : list Op) :
  source_ok d = true -> forallb conforming ops = true ->
  source_ok (run ops d) = true.
Proof.
  revert d. induction ops as [|o ops IH]; intros d Hd Hops.
  - exact Hd.
  - cbn [forallb] in Hops. apply andb_prop in Hops as [Ho Hops].
    cbn [run fold_left]. apply IH; [|exact Hops].
    apply run_op_source_ok; assumption.
Qed.

Lemma source_ok_preserved_witness :
  source_ok
    (run [OpSet (PyBytes [x00; x01; xff]); OpObserve 1%nat; OpGet;
          OpSet (PyStr "aGk="); OpUnobserve]
       (init ∅ ∅)) = true.
Proof.
  apply (source_ok_preserved (init ∅ ∅)
           [OpSet (PyBytes [x00; x01; xff]); OpObserve 1%nat; OpGet;
            OpSet (PyStr "aGk="); OpUnobserve]).
  - reflexivity.
  - reflexivity.
Defined.

(** C6. String pass-through: for every valid base64 string [s], [set(s)]
    stores [s] itself, so the raw field reads [s] afterwards. *)
Theorem set_str_is_stored (d : Doc) (s : string) :
  is_valid_base64 s = true ->
  ysource (exec (set (PyStr s)) d) !! "base64"%string = Some (PyStr s).
Proof.
  intros _. rewrite ysource_set by reflexivity. apply lookup_insert_eq.
Qed.

Lemma set_str_is_stored_witness :
  ysource (exec (set (PyStr "AAH/")) (init ∅ ∅)) !! "base64"%string
  = Some (PyStr "AAH/").
Proof.
  apply (set_str_is_stored (init ∅ ∅) "AAH/"). reflexivity.
Defined.


(** C9. When the key ["base64"] is absent from the source map, [get()]
    returns the empty byte sequence (and leaves the document as it was). *)
Theorem get_absent_is_empty (d : Doc) :
  ysource d !! "base64"%string = None ->
  map_get NSource "base64" (PyStr EmptyString) d
  = (Return (PyStr EmptyString), d) /\
  get d = (Return [], d).
Proof.
  intros H. split.
  - unfold map_get, gets. cbn [contents]. rewrite H. reflexivity.
  - rewrite get_eq, H. reflexivity.
Qed.

Lemma get_absent_is_empty_witness :
  get (init ∅ ∅) = (Return [], init ∅ ∅).
Proof.
  apply (get_absent_is_empty (init ∅ ∅)). reflexivity.
Defined.

(** C10. In every document state, and after every history of operations,
    [version] is ["1.0.0"]. *)
Theorem version_is_constant (d : Doc) (ops : list Op) :
  eval version d = Return "1.0.0"%string /\
  eval version (run ops d) = Return "1.0.0"%string.
Proof. split; reflexivity. Qed.

(* ===================================================================== *)
(** ** The document: change observation *)
(* ===================================================================== *)

Section Observation.

Lemma unobserve_tracked (d : Doc) :
  tracked d ->
  unobserve d =
  (Return tt,
   MkDoc (ystate d) (ysource d) [] [] (next_subscription d) [] (calls d)).
Proof.
  intros [(Hs & Hst & Hsrc) | (a & b & hs & hc & Hs & Hst & Hsrc)];
    destruct d as [st src so co nx subs cs]; cbn in Hs, Hst, Hsrc; subst.
  - reflexivity.
  - unfold unobserve, bind, gets, modify. cbn [subscriptions].
    cbn [unobserve_items]. unfold bind, node_unobserve.
    cbn [observers state_observers source_observers list_remove fst].
    rewrite Nat.eqb_refl.
    cbn [set_observers observers state_observers source_observers
         ystate ysource next_subscription subscriptions calls
         list_remove fst].
    rewrite Nat.eqb_refl. reflexivity.
Qed.

Lemma observe_tracked (cb : Callback) (d : Doc) :
  tracked d ->
  observe cb d =
  (Return tt,
   MkDoc (ystate d) (ysource d)
     [(next_subscription d, partial cb "state")]
     [(S (next_subscription d), partial cb "source")]
     (S (S (next_subscription d)))
     [(NState, next_subscription d); (NSource, S (next_subscription d))]
     (calls d)).
Proof.
  intros Ht. unfold observe. unfold bind at 1.
  rewrite (unobserve_tracked d Ht). reflexivity.
Qed.

Lemma observe_observing (cb : Callback) (d : Doc) :
  tracked d -> observing cb (exec (observe cb) d).
Proof.
  intros Ht. unfold exec. rewrite (observe_tracked cb d Ht).
  exists (next_subscription d), (S (next_subscription d)).
  repeat split.
Qed.

Lemma observing_tracked (cb : Callback) (d : Doc) :
  observing cb d -> tracked d.
Proof. intros (a & b & H). right. exists a, b. eauto. Qed.

Lemma map_setitem_tracked n k v d :
  tracked d -> tracked (exec (map_setitem n k v) d).
Proof.
  intros H. unfold exec. rewrite map_setitem_eq.
  destruct (py_to_any v); [exact H|destruct n; exact H].
Qed.

Lemma run_op_tracked (o : Op) (d : Doc) : tracked d -> tracked (run_op o d).
Proof.
  intros Ht. destruct o as [| |v|cb| |k v]; cbn [run_op].
  - exact Ht.
  - rewrite get_state. exact Ht.
  - unfold exec. rewrite set_eq. apply (map_setitem_tracked _ _ _ _ Ht).
  - eapply observing_tracked, observe_observing, Ht.
  - unfold exec. rewrite (unobserve_tracked d Ht). left. repeat split.
  - apply (map_setitem_tracked _ _ _ _ Ht).
Qed.

Lemma run_tracked (ops : list Op) (d : Doc) :
  tracked d -> tracked (run ops d).
Proof.
  revert d. induction ops as [|o ops IH]; intros d Ht; [exact Ht|].
  apply IH, run_op_tracked, Ht.
Qed.

Lemma init_tracked st src : tracked (init st src).
Proof. left. repeat split. Qed.

(** A write to a node calls the observing callback once, with the label
    of that node. *)
Lemma map_setitem_observing cb n k v d :
  observing cb d ->
  observing cb (exec (map_setitem n k v) d) /\
  calls (exec (map_setitem n k v) d) =
  calls d ++
    match py_to_any v with
    | inr a => [Called cb (node_name n) (Event n k (contents n d !! k) a)]
    | inl _ => []
    end.
Proof.
  intros (a & b & Hs & Hst & Hsrc). unfold exec. rewrite map_setitem_eq.
  destruct (py_to_any v) as [e|w]; cbn [snd].
  - split; [exists a, b; auto|]. now rewrite app_nil_r.
  - split.
    + exists a, b. destruct n; auto.
    + destruct n; cbn [observers log_calls calls]; rewrite ?Hst, ?Hsrc;
        reflexivity.
Qed.

Lemma run_access_observing cb (accs : list Access) d :
  observing cb d -> observing cb (run (map op_of accs) d).
Proof.
  revert d. induction accs as [|a accs IH]; intros d Ho; [exact Ho|].
  cbn [map]. apply IH.
  destruct a as [| |v|k v]; cbn [op_of run_op].
  - exact Ho.
  - rewrite get_state. exact Ho.
  - unfold exec. rewrite set_eq.
    apply (map_setitem_observing cb NSource _ _ d Ho).
  - apply (map_setitem_observing cb NState _ _ d Ho).
Qed.

End Observation.

(** The scenario of the spec: [observe(cb)], [set(b"hi")] calls [cb] once
    with ["source"]; after [unobserve()], [set(b"bye")] calls nothing. *)
Example observe_set_unobserve_set :
  map (fun c => (c_callback c, c_label c))
    (calls (run [OpObserve 7%nat; OpSet (PyBytes (str_encode "hi"));
                 OpUnobserve; OpSet (PyBytes (str_encode "bye"))]
              (init ∅ ∅)))
  = [(7%nat, "source"%string)].
Proof. vm_compute. reflexivity. Qed.

(** C5. [observe(cb)] returns, and after it (whatever the history of the
    document, earlier [observe] calls included) the state node and the
    source node have exactly one subscription each, new ones for
    [partial(cb, "state")] and [partial(cb, "source")], both recorded in
    [_subscriptions]; a following [unobserve()] returns and leaves none. *)
Theorem observe_one_subscription_per_node
    (st src : gmap string value) (ops : list Op) (cb : Callback) :
  let d := run ops (init st src) in
  let d1 := exec (observe cb) d in
  let d2 := exec unobserve d1 in
  eval (observe cb) d = Return tt /\
  state_observers d1 = [(next_subscription d, partial cb "state")] /\
  source_observers d1 = [(S (next_subscription d), partial cb "source")] /\
  subscriptions d1
  = [(NState, next_subscription d); (NSource, S (next_subscription d))] /\
  eval unobserve d1 = Return tt /\
  state_observers d2 = [] /\ source_observers d2 = [] /\
  subscriptions d2 = [].
Proof.
  intros d d1 d2.
  assert (Ht : tracked d) by apply run_tracked, init_tracked.
  assert (Ht1 : tracked d1)
    by (eapply observing_tracked, observe_observing, Ht).
  subst d2. unfold eval, exec.
  rewrite (unobserve_tracked d1 Ht1).
  subst d1. unfold exec. rewrite (observe_tracked cb d Ht).
  repeat split.
Qed.

(** C7. While the callback registered by [observe(cb)] is active (after
    [observe], through any reads and writes that follow), every write to a
    node invokes [cb] exactly once, with the name of that node as first
    argument, and adds no other call: a [set] call with bytes or with a
    string gives one call [cb("source", event)] and none labelled
    ["state"], a write to the state node gives one call
    [cb("state", event)]; [get] invokes nothing. The same holds for every
    other value the map stores; a value the map refuses is not written, and
    then nothing is invoked. *)
Theorem callback_once_per_mutation
    (st src : gmap string value) (ops : list Op) (cb : Callback)
    (accs : list Access) :
  let d := run (map op_of accs) (exec (observe cb) (run ops (init st src))) in
  (forall b,
      calls (exec (set (PyBytes b)) d) =
      calls d ++
        [Called cb "source"
           (Event NSource "base64" (ysource d !! "base64"%string)
              (stored (PyBytes b)))]) /\
  (forall s,
      calls (exec (set (PyStr s)) d) =
      calls d ++
        [Called cb "source"
           (Event NSource "base64" (ysource d !! "base64"%string)
              (PyStr s))]) /\
  (forall v,
      calls (exec (set v) d) =
      calls d ++
        match py_to_any (stored v) with
        | inr a =>
            [Called cb "source"
               (Event NSource "base64" (ysource d !! "base64"%string) a)]
        | inl _ => []
        end) /\
  (forall n k v,
      calls (exec (map_setitem n k v) d) =
      calls d ++
        match py_to_any v with
        | inr a => [Called cb (node_name n) (Event n k (contents n d !! k) a)]
        | inl _ => []
        end) /\
  calls (exec get d) = calls d.
Proof.
  intros d.
  assert (Ho : observing cb d).
  { apply run_access_observing, observe_observing, run_tracked,
      init_tracked. }
  assert (Hset : forall v,
             calls (exec (set v) d) =
             calls d ++
               match py_to_any (stored v) with
               | inr a =>
                   [Called cb "source"
                      (Event NSource "base64"
                         (ysource d !! "base64"%string) a)]
               | inl _ => []
               end).
  { intros v. unfold exec. rewrite set_eq.
    apply (map_setitem_observing cb NSource "base64" (stored v) d Ho). }
  split; [|split; [|split; [|split]]].
  - intros b. apply (Hset (PyBytes b)).
  - intros s. apply (Hset (PyStr s)).
  - exact Hset.
  - intros n k v. apply (map_setitem_observing cb n k v d Ho).
  - rewrite get_state. reflexivity.
Qed.

(* ===================================================================== *)
(** ** Further properties of the decoder and the encoder *)
(* ===================================================================== *)

Section Base64_more.

Ltac arith := Z.div_mod_to_equations; lia.

Lemma a2b_loop_strip (data : bytes) (st : a2b_state) :
  a2b_loop st (strip data) = a2b_loop st data.
Proof.
  revert st. induction data as [|c data IH]; intros st; [reflexivity|].
  unfold strip in *. cbn [List.filter]. unfold significant at 1.
  destruct (is_digit c) eqn:Hd; cbn [orb].
  - rewrite !a2b_loop_cons. destruct (a2b_step st c); [apply IH|reflexivity].
  - destruct (is_pad c) eqn:Hp.
    + rewrite !a2b_loop_cons.
      destruct (a2b_step st c); [apply IH|reflexivity].
    + rewrite (a2b_loop_cons st c data), (a2b_step_other st c Hp Hd).
      apply IH.
Qed.

Lemma b64decode_strip (data : bytes) :
  b64decode (strip data) = b64decode data.
Proof. unfold b64decode, a2b_base64. now rewrite a2b_loop_strip. Qed.

(** On text without pads: where the decoder stands, how much it has
    written, and that it has counted no pad. *)
Lemma a2b_loop_no_pad_length (data : bytes) (st : a2b_state) :
  no_pad data = true -> 0 <= quad_pos st < 4 ->
  exists st',
    a2b_loop st data = Next st' /\
    quad_pos st' = (quad_pos st + digits data) mod 4 /\
    Z.of_nat (length (bin_data st')) =
    Z.of_nat (length (bin_data st))
    + 3 * (quad_pos st + digits data) / 4 - 3 * quad_pos st / 4 /\
    (pads st = 0 -> pads st' = 0).
Proof.
  revert st. induction data as [|c data IH]; intros st Hpad Hqp.
  - exists st. split; [reflexivity|]. unfold digits. cbn [List.filter length].
    repeat split; [arith|arith|auto].
  - cbn [no_pad forallb] in Hpad. apply andb_prop in Hpad as [Hc Hpad].
    apply negb_true_iff in Hc. rewrite a2b_loop_cons, digits_cons.
    assert (Hn : 0 <= digits data) by (unfold digits; lia).
    unfold a2b_step, is_digit. unfold is_pad in Hc. unfold is_pad.
    rewrite Hc. cbn [negb andb].
    destruct (Z.leb_spec 64 (a2b (to_Z c))) as [Hge|Hlt].
    + replace (a2b (to_Z c) <? 64) with false
        by (symmetry; apply Z.ltb_ge; lia).
      destruct (IH st Hpad Hqp) as (st' & Hloop & Hq & Hl & Hp).
      exists st'. rewrite Z.add_0_l. auto.
    + replace (a2b (to_Z c) <? 64) with true
        by (symmetry; apply Z.ltb_lt; lia).
      destruct (Z.eqb_spec (quad_pos st) 0) as [E0|N0];
        [|destruct (Z.eqb_spec (quad_pos st) 1) as [E1|N1];
          [|destruct (Z.eqb_spec (quad_pos st) 2) as [E2|N2];
            [|destruct (Z.eqb_spec (quad_pos st) 3) as [E3|N3];
              [|lia]]]];
        match goal with
        | |- context [a2b_loop ?s data] =>
            destruct (IH s Hpad) as (st' & Hloop & Hq & Hl & Hp);
            [cbn [quad_pos]; lia|];
            exists st'; split; [exact Hloop|];
            cbn [quad_pos bin_data pads] in *;
            rewrite ?length_app in Hl; cbn [length] in Hl;
            repeat split; [arith|arith|auto]
        end.
Qed.

Lemma all_digits (cs : bytes) :
  forallb is_digit cs = true ->
  no_pad cs = true /\ digits cs = Z.of_nat (length cs).
Proof.
  induction cs as [|c cs IH]; intros H; [split; reflexivity|].
  cbn [forallb] in H. apply andb_prop in H as [Hc H].
  destruct (IH H) as [Hp Hd]. rewrite digits_cons, Hc, Hd. split.
  - cbn [no_pad forallb]. fold (no_pad cs). rewrite Hp.
    unfold is_digit in Hc. apply andb_prop in Hc as [Hc _].
    now rewrite Hc.
  - cbn [length]. lia.
Qed.

Lemma a2b_step_is_pad (st : a2b_state) (c : byte) :
  is_pad c = true ->
  a2b_step st c =
  if 2 <=? quad_pos st then
    let st' := A2B (quad_pos st) (d_leftchar st) (pads st + 1)
                 (bin_data st) in
    if 4 <=? quad_pos st + (pads st + 1) then Done st' else Next st'
  else Next st.
Proof. unfold is_pad, a2b_step. now intros ->. Qed.

Lemma a2b_loop_end_pad (st : a2b_state) (d : byte) :
  quad_pos st = 3 -> pads st = 0 -> is_pad d = true ->
  a2b_loop st [d] = Done (A2B 3 (d_leftchar st) 1 (bin_data st)).
Proof.
  intros Hq Hp Hd. cbn [a2b_loop].
  rewrite (a2b_step_is_pad st d Hd), Hq, Hp. reflexivity.
Qed.

Lemma a2b_loop_end_pad_pad (st : a2b_state) (c d : byte) :
  quad_pos st = 2 -> pads st = 0 -> is_pad c = true -> is_pad d = true ->
  a2b_loop st [c; d] = Done (A2B 2 (d_leftchar st) 2 (bin_data st)).
Proof.
  intros Hq Hp Hc Hd. rewrite a2b_loop_cons.
  rewrite (a2b_step_is_pad st c Hc), Hq, Hp.
  change (2 <=? 2) with true. change (4 <=? 2 + (0 + 1)) with false.
  cbv beta zeta match.
  rewrite a2b_loop_cons, (a2b_step_is_pad _ d Hd). reflexivity.
Qed.

Lemma digits_app (xs ys : bytes) : digits (xs ++ ys) = digits xs + digits ys.
Proof.
  induction xs as [|x xs IH]; [unfold digits; cbn; lia|].
  cbn [app]. rewrite !digits_cons, IH. lia.
Qed.

Lemma is_pad_not_digit (c : byte) : is_pad c = true -> is_digit c = false.
Proof. unfold is_digit. now intros ->. Qed.

(** Valid base64 text always decodes, to three octets for every four
    digits. *)
Lemma b64decode_valid (cs : bytes) :
  valid_base64_bytes cs = true ->
  exists out, b64decode cs = inr out /\
              Z.of_nat (length out) = 3 * digits cs / 4.
Proof.
  unfold valid_base64_bytes. intros H. apply andb_prop in H as [Hlen H].
  apply Z.eqb_eq in Hlen.
  rewrite <- (rev_involutive cs) in Hlen |- *.
  destruct (rev cs) as [|d [|c rest]];
    [exists []; split; reflexivity|discriminate|].
  apply andb_prop in H as [Hrest H].
  rewrite length_rev in Hlen. cbn [length] in Hlen.
  rewrite <- forallb_rev in Hrest.
  cbn [rev]. rewrite <- app_assoc. cbn [app].
  unfold b64decode, a2b_base64.
  apply orb_prop in H as [H|H]; apply andb_prop in H as [Hc Hd].
  - apply orb_prop in Hd as [Hd|Hd].
    + (* no padding *)
      assert (Hall : forallb is_digit (rev rest ++ [c; d]) = true).
      { rewrite forallb_app, Hrest. cbn [forallb]. now rewrite Hc, Hd. }
      destruct (all_digits _ Hall) as [Hnp Hdig].
      destruct (a2b_loop_no_pad_length _ (A2B 0 0 0 []) Hnp)
        as (st' & -> & Hq & Hl & _); [cbn [quad_pos]; lia|].
      cbn [quad_pos bin_data length] in Hq, Hl.
      assert (Hn : digits (rev rest ++ [c; d]) mod 4 = 0).
      { rewrite Hdig, length_app, length_rev. cbn [length]. arith. }
      replace (quad_pos st' =? 0) with true
        by (symmetry; apply Z.eqb_eq; rewrite Hq; arith).
      eexists. split; [reflexivity|]. rewrite Hl. arith.
    + (* one pad *)
      assert (Hall : forallb is_digit (rev rest ++ [c]) = true).
      { rewrite forallb_app, Hrest. cbn [forallb]. now rewrite Hc. }
      destruct (all_digits _ Hall) as [Hnp Hdig].
      destruct (a2b_loop_no_pad_length _ (A2B 0 0 0 []) Hnp)
        as (st' & Hloop & Hq & Hl & Hp); [cbn [quad_pos]; lia|].
      cbn [quad_pos pads bin_data length] in Hq, Hl, Hp.
      assert (Hn : digits (rev rest ++ [c]) mod 4 = 3).
      { rewrite Hdig, length_app, length_rev. cbn [length]. arith. }
      change (rev rest ++ [c; d]) with (rev rest ++ [c] ++ [d]).
      rewrite app_assoc, a2b_loop_app, Hloop.
      rewrite (a2b_loop_end_pad st' d) by (auto; arith).
      eexists. split; [reflexivity|]. cbn [bin_data].
      rewrite digits_app, (digits_cons d []), (is_pad_not_digit d Hd), Hl.
      unfold digits at 3. cbn [List.filter length]. arith.
  - (* two pads *)
    destruct (all_digits _ Hrest) as [Hnp Hdig].
    destruct (a2b_loop_no_pad_length _ (A2B 0 0 0 []) Hnp)
      as (st' & Hloop & Hq & Hl & Hp); [cbn [quad_pos]; lia|].
    cbn [quad_pos pads bin_data length] in Hq, Hl, Hp.
    assert (Hn : digits (rev rest) mod 4 = 2).
    { rewrite Hdig, length_rev. arith. }
    rewrite a2b_loop_app, Hloop.
    rewrite (a2b_loop_end_pad_pad st' c d) by (auto; arith).
    eexists. split; [reflexivity|]. cbn [bin_data].
    rewrite digits_app, (digits_cons c [d]), (digits_cons d []),
      (is_pad_not_digit c Hc), (is_pad_not_digit d Hd), Hl.
    unfold digits at 3. cbn [List.filter length]. arith.
Qed.

(** An alphabet character is ASCII. *)
Lemma is_digit_ascii (c : byte) : is_digit c = true -> to_Z c < 128.
Proof. destruct c; vm_compute; intros H; (reflexivity || discriminate H). Qed.

Lemma is_pad_ascii (c : byte) : is_pad c = true -> to_Z c < 128.
Proof.
  unfold is_pad. intros H. apply Z.eqb_eq in H. rewrite H. reflexivity.
Qed.

Lemma forallb_impl {A} (f g : A -> bool) (l : list A) :
  (forall x, f x = true -> g x = true) ->
  forallb f l = true -> forallb g l = true.
Proof.
  intros Hfg. induction l as [|x l IH]; [reflexivity|].
  cbn [forallb]. intros H. apply andb_prop in H as [Hx H].
  now rewrite (Hfg x Hx), (IH H).
Qed.

(** The encoder writes digits and pads only. *)
Lemma b64encode_significant (data : bytes) :
  forallb significant (b64encode data) = true.
Proof.
  unfold b64encode, b2a_base64, b2a_finish.
  destruct (b2a_written_ok data) as [Hdig _].
  apply (forallb_impl is_digit significant) in Hdig;
    [|unfold significant; now intros x ->].
  destruct (fold_left b2a_step data (B2A 0 0 [])) as [lc lb out].
  cbn [e_out e_leftbits e_leftchar] in *.
  assert (Hlow : forall m k, 0 <= k -> 0 <= m -> m * 2 ^ k < 64 ->
                 significant (b2a (Z.shiftl m k)) = true).
  { intros m k Hk Hm Hlt. unfold significant.
    rewrite is_digit_b2a; [reflexivity|].
    rewrite Z.shiftl_mul_pow2 by lia. split; [|exact Hlt].
    apply Z.mul_nonneg_nonneg; [lia|]. apply Z.pow_nonneg. lia. }
  destruct (lb =? 2); [|destruct (lb =? 4)]; rewrite ?forallb_app, ?Hdig;
    try reflexivity; cbn [forallb andb].
  - rewrite Hlow; [reflexivity|lia| |]; rewrite land_3;
      change (2 ^ 4) with 16; arith.
  - rewrite Hlow; [reflexivity|lia| |]; rewrite land_15;
      change (2 ^ 2) with 4; arith.
Qed.

(** The length of the encoding: four characters for every three octets,
    the last group padded to four. *)
Lemma rfc4648_encode_length (n : nat) :
  forall data : bytes,
    (length data <= n)%nat ->
    Z.of_nat (length (rfc4648_encode data))
    = 4 * ((Z.of_nat (length data) + 2) / 3).
Proof.
  induction n as [|n IH]; intros data Hlen.
  - destruct data; [reflexivity|cbn [length] in Hlen; lia].
  - destruct data as [|a [|b [|c rest]]]; try reflexivity.
    cbn [rfc4648_encode]. rewrite length_app.
    cbn [length] in *. rewrite Nat2Z.inj_add, IH by lia. arith.
Qed.

(** On valid text that ends with a pad, the decoder leaves its loop at
    the pad, before the end of the input is looked for. *)
Lemma a2b_loop_padded_done (cs : bytes) :
  valid_base64_bytes cs = true -> ends_with_pad cs = true ->
  exists st, a2b_loop (A2B 0 0 0 []) cs = Done st.
Proof.
  unfold valid_base64_bytes, ends_with_pad. intros H Hend.
  apply andb_prop in H as [Hlen H]. apply Z.eqb_eq in Hlen.
  rewrite <- (rev_involutive cs) in Hlen |- *.
  destruct (rev cs) as [|d [|c rest]]; try discriminate.
  apply andb_prop in H as [Hrest H].
  rewrite length_rev in Hlen. cbn [length] in Hlen.
  rewrite <- forallb_rev in Hrest.
  cbn [rev]. rewrite <- app_assoc. cbn [app].
  assert (Hc : is_digit c = true \/ is_pad c = true).
  { apply orb_prop in H as [H|H]; apply andb_prop in H as [Hc _]; auto. }
  destruct Hc as [Hc|Hc].
  - assert (Hall : forallb is_digit (rev rest ++ [c]) = true).
    { rewrite forallb_app, Hrest. cbn [forallb]. now rewrite Hc. }
    destruct (all_digits _ Hall) as [Hnp Hdig].
    destruct (a2b_loop_no_pad_length _ (A2B 0 0 0 []) Hnp)
      as (st' & Hloop & Hq & _ & Hp); [cbn [quad_pos]; lia|].
    cbn [quad_pos pads] in Hq, Hp.
    rewrite Hdig, length_app, length_rev in Hq. cbn [length] in Hq.
    change (rev rest ++ [c; d]) with (rev rest ++ [c] ++ [d]).
    rewrite app_assoc, a2b_loop_app, Hloop.
    rewrite (a2b_loop_end_pad st' d) by (auto; arith).
    now eexists.
  - destruct (all_digits _ Hrest) as [Hnp Hdig].
    destruct (a2b_loop_no_pad_length _ (A2B 0 0 0 []) Hnp)
      as (st' & Hloop & Hq & _ & Hp); [cbn [quad_pos]; lia|].
    cbn [quad_pos pads] in Hq, Hp.
    rewrite Hdig, length_rev in Hq.
    rewrite a2b_loop_app, Hloop.
    rewrite (a2b_loop_end_pad_pad st' c d) by (auto; arith).
    now eexists.
Qed.

Lemma b64decode_padded_app (cs tail : bytes) :
  valid_base64_bytes cs = true -> ends_with_pad cs = true ->
  b64decode (cs ++ tail) = b64decode cs.
Proof.
  intros Hv He. destruct (a2b_loop_padded_done cs Hv He) as [st Hst].
  unfold b64decode, a2b_base64. now rewrite a2b_loop_app, Hst.
Qed.

End Base64_more.

(* ===================================================================== *)
(** ** Further properties of the document *)
(* ===================================================================== *)

Section Document_more.

Lemma get_non_str (d : Doc) (v : value) :
  ysource d !! "base64"%string = Some v -> isinstance_str v = false ->
  get d = (Raise (AttributeError "encode"), d).
Proof.
  intros Hv Hs. rewrite get_eq, Hv.
  destruct v; try reflexivity. discriminate.
Qed.

Lemma get_depends_on_field (d d' : Doc) :
  ysource d !! "base64"%string = ysource d' !! "base64"%string ->
  eval get d = eval get d'.
Proof.
  intros H. unfold eval. rewrite !get_eq, H.
  destruct (ysource d' !! "base64"%string) as [[| |s| | | |]|]; try reflexivity.
  destruct (b64decode (str_encode s)); reflexivity.
Qed.

Lemma node_unobserve_frame n sub d :
  ystate (snd (node_unobserve n sub d)) = ystate d /\
  calls (snd (node_unobserve n sub d)) = calls d.
Proof.
  unfold node_unobserve.
  destruct (list_remove sub (observers n d)); [|split; reflexivity].
  destruct n; split; reflexivity.
Qed.

Lemma unobserve_items_frame items d :
  ystate (snd (unobserve_items items d)) = ystate d /\
  calls (snd (unobserve_items items d)) = calls d.
Proof.
  revert d. induction items as [|[k v] items IH]; intros d.
  - split; reflexivity.
  - cbn [unobserve_items]. unfold bind.
    pose proof (node_unobserve_frame k v d) as [H1 H2].
    destruct (node_unobserve k v d) as [[[]|e] d']; cbn [snd] in *.
    + destruct (IH d') as [I1 I2]. split; congruence.
    + split; assumption.
Qed.

Lemma unobserve_frame d :
  ystate (exec unobserve d) = ystate d /\
  calls (exec unobserve d) = calls d.
Proof.
  unfold exec, unobserve, bind, gets, modify.
  pose proof (unobserve_items_frame (subscriptions d) d) as H.
  destruct (unobserve_items (subscriptions d) d) as [[[]|e] d'];
    cbn [snd] in *; exact H.
Qed.

Lemma observe_frame cb d :
  ystate (exec (observe cb) d) = ystate d /\
  calls (exec (observe cb) d) = calls d.
Proof.
  pose proof (unobserve_frame d) as [H1 H2]. unfold exec in *.
  remember (observe cb d) as r eqn:Er.
  unfold observe in Er. unfold bind at 1 in Er.
  destruct (unobserve d) as [[[]|e] d']; subst r; cbn [snd] in *;
    rewrite <- H1, <- H2; split; reflexivity.
Qed.

Lemma map_setitem_silent n k v d :
  silent d = true ->
  silent (exec (map_setitem n k v) d) = true /\
  calls (exec (map_setitem n k v) d) = calls d.
Proof.
  unfold silent. intros H.
  destruct (state_observers d) eqn:Hst; [|discriminate].
  destruct (source_observers d) eqn:Hsrc; [|discriminate].
  unfold exec. rewrite map_setitem_eq.
  destruct (py_to_any v) as [e|w]; cbn [snd].
  - rewrite Hst, Hsrc. split; reflexivity.
  - destruct n; cbn [observers set_contents log_calls state_observers
                     source_observers calls map];
      rewrite ?Hst, ?Hsrc; cbn [map]; rewrite app_nil_r; split; reflexivity.
Qed.

Lemma run_access_silent (accs : list Access) (d : Doc) :
  silent d = true ->
  silent (run (map op_of accs) d) = true /\
  calls (run (map op_of accs) d) = calls d.
Proof.
  revert d. induction accs as [|a accs IH]; intros d Hs; [auto|].
  cbn [map run fold_left].
  assert (H : silent (run_op (op_of a) d) = true /\
              calls (run_op (op_of a) d) = calls d).
  { destruct a as [| |v|k v]; cbn [op_of run_op].
    - auto.
    - rewrite get_state. auto.
    - unfold exec. rewrite set_eq.
      apply (map_setitem_silent NSource _ _ d Hs).
    - apply (map_setitem_silent NState _ _ d Hs). }
  destruct H as [H1 H2]. destruct (IH _ H1) as [I1 I2].
  split; [exact I1|]. unfold run in I2. now rewrite I2.
Qed.

End Document_more.

(** X1. [get] only reads: it leaves the document as it was, whether it
    returns or raises, and what it yields is the same before and after any
    operation other than [set]. *)
Theorem get_reads_only (d : Doc) (o : Op) :
  writes_source o = false ->
  exec get d = d /\ eval get (run_op o d) = eval get d.
Proof.
  intros Ho. split; [apply get_state|].
  apply get_depends_on_field.
  destruct o as [| |v|cb| |k v]; cbn [run_op]; try discriminate.
  - reflexivity.
  - now rewrite get_state.
  - now rewrite observe_ysource.
  - now rewrite unobserve_ysource.
  - unfold exec. rewrite map_setitem_eq.
    destruct (py_to_any v); reflexivity.
Qed.

Lemma get_reads_only_witness :
  exec get (exec (set (PyStr "AAH")) (init ∅ ∅))
  = exec (set (PyStr "AAH")) (init ∅ ∅) /\
  eval get (run_op (OpObserve 3%nat) (exec (set (PyStr "AAH")) (init ∅ ∅)))
  = eval get (exec (set (PyStr "AAH")) (init ∅ ∅)).
Proof.
  apply (get_reads_only (exec (set (PyStr "AAH")) (init ∅ ∅))
           (OpObserve 3%nat)).
  reflexivity.
Defined.

(** X2. [set] writes the key ["base64"] of the source map and nothing
    else: the other keys of the source map, the state map and the
    subscriptions are as before. *)
Theorem set_writes_one_key (d : Doc) (v : value) (k : string) :
  k <> "base64"%string ->
  ysource (exec (set v) d) !! k = ysource d !! k /\
  ystate (exec (set v) d) = ystate d /\
  subscriptions (exec (set v) d) = subscriptions d /\
  state_observers (exec (set v) d) = state_observers d /\
  source_observers (exec (set v) d) = source_observers d.
Proof.
  intros Hk. split.
  - rewrite ysource_set_any. destruct (py_to_any (stored v));
      [reflexivity|now apply lookup_insert_ne].
  - unfold exec. rewrite set_eq, map_setitem_eq.
    destruct (py_to_any (stored v)); repeat split.
Qed.

Lemma set_writes_one_key_witness :
  ysource (exec (set (PyBytes [x00]))
             (init ∅ {["other"%string := PyBool true]})) !! "other"%string
  = ysource (init ∅ {["other"%string := PyBool true]}) !! "other"%string.
Proof.
  refine (proj1 (set_writes_one_key
                   (init ∅ {["other"%string := PyBool true]})
                   (PyBytes [x00]) "other" _)).
  discriminate.
Defined.

(** X3. For a value that is neither bytes nor a string: when [set]
    returns ([None], a boolean, a float, an [int] within 64 bits), the
    next [get] raises [AttributeError], as what is stored has no [encode];
    when [set] raises, nothing was written and [get] gives what it gave
    before. *)
Theorem get_after_set_other (d : Doc) (v : value) :
  isinstance_bytes v = false -> isinstance_str v = false ->
  match py_to_any v with
  | inr _ =>
      eval (set v) d = Return tt /\
      get (exec (set v) d)
      = (Raise (AttributeError "encode"), exec (set v) d)
  | inl e =>
      set v d = (Raise e, d) /\ eval get (exec (set v) d) = eval get d
  end.
Proof.
  intros Hb Hs.
  assert (Hst : stored v = v) by (destruct v; try discriminate; reflexivity).
  pose proof (ysource_set_any v d) as Hy. rewrite Hst in Hy.
  assert (Hset : set v d = map_setitem NSource "base64" v d)
    by (rewrite set_eq, Hst; reflexivity).
  rewrite map_setitem_eq in Hset.
  destruct (py_to_any v) as [e|a] eqn:Ha.
  - split; [exact Hset|]. unfold exec. rewrite Hset. reflexivity.
  - split; [unfold eval; rewrite Hset; reflexivity|].
    apply (get_non_str _ a).
    + rewrite Hy. apply lookup_insert_eq.
    + destruct v as [|b|s|b|z|f|o]; try discriminate;
        cbn [py_to_any] in Ha.
      * injection Ha as <-. reflexivity.
      * injection Ha as <-. reflexivity.
      * destruct (in_i64 z); [|discriminate]. injection Ha as <-.
        destruct (MAX_JS_NUMBER <? z); reflexivity.
      * injection Ha as <-. reflexivity.
Qed.

Lemma get_after_set_other_witness :
  eval (set PyNone) (init ∅ ∅) = Return tt /\
  get (exec (set PyNone) (init ∅ ∅))
  = (Raise (AttributeError "encode"), exec (set PyNone) (init ∅ ∅)).
Proof.
  apply (get_after_set_other (init ∅ ∅) PyNone); reflexivity.
Defined.

(** X4. After [set] of a string that is valid base64, [get] returns, and
    it returns three octets for every four alphabet characters of the
    string (rounded down). *)
Theorem get_after_set_valid_str (d : Doc) (s : string) :
  is_valid_base64 s = true ->
  exists out,
    eval get (exec (set (PyStr s)) d) = Return out /\
    Z.of_nat (length out) = 3 * digits (str_encode s) / 4.
Proof.
  intros Hs. destruct (b64decode_valid (str_encode s) Hs) as (out & Hd & Hl).
  exists out. split; [|exact Hl].
  unfold eval. rewrite get_eq, ysource_set, lookup_insert_eq by reflexivity.
  cbn [stored]. now rewrite Hd.
Qed.

Lemma get_after_set_valid_str_witness :
  exists out,
    eval get (exec (set (PyStr "aGk=")) (init ∅ ∅)) = Return out /\
    Z.of_nat (length out) = 3 * digits (str_encode "aGk=") / 4.
Proof.
  apply (get_after_set_valid_str (init ∅ ∅) "aGk="). reflexivity.
Defined.

(** X5. [get] passes over every character that is neither of the alphabet
    nor the pad: a stored string and the same string with those characters
    taken out give the same result, value or error. *)
Theorem get_ignores_other_characters (d : Doc) (s : string) :
  eval get (exec (set (PyStr s)) d)
  = eval get (exec (set (PyStr (bytes_decode (strip (str_encode s))))) d).
Proof.
  unfold eval. rewrite !get_eq, !ysource_set, !lookup_insert_eq by reflexivity.
  cbn [stored]. rewrite str_encode_bytes_decode, b64decode_strip.
  destruct (b64decode (str_encode s)); reflexivity.
Qed.

(** X6. For a stored string without pad characters that has [n] alphabet
    characters, [get] returns [3n/4] octets when [n] is a multiple of four,
    raises [binascii.Error] "number of data characters ([n]) cannot be 1
    more than a multiple of 4" when [n] is one more, and raises
    [binascii.Error] "Incorrect padding" otherwise. *)
Theorem get_result_by_digit_count (d : Doc) (s : string) :
  ysource d !! "base64"%string = Some (PyStr s) ->
  no_pad (str_encode s) = true ->
  (digits (str_encode s) mod 4 = 0 ->
   exists out, get d = (Return out, d) /\
               Z.of_nat (length out) = 3 * digits (str_encode s) / 4) /\
  (digits (str_encode s) mod 4 = 1 ->
   get d = (Raise (BinasciiError (InvalidLength (digits (str_encode s)))),
            d)) /\
  (digits (str_encode s) mod 4 = 2 \/ digits (str_encode s) mod 4 = 3 ->
   get d = (Raise (BinasciiError IncorrectPadding), d)).
Proof.
  intros Hs Hpad. rewrite get_eq, Hs. unfold b64decode, a2b_base64.
  destruct (a2b_loop_no_pad_length (str_encode s) (A2B 0 0 0 []) Hpad)
    as (st' & -> & Hq & Hl & _); [cbn [quad_pos]; lia|].
  cbn [quad_pos bin_data length] in Hq, Hl. rewrite Z.add_0_l in Hq.
  rewrite Hq.
  assert (Hn : 0 <= digits (str_encode s)) by (unfold digits; lia).
  split; [|split]; intros Hm.
  - rewrite Hm. cbn [Z.eqb]. eexists. split; [reflexivity|].
    rewrite Hl. Z.div_mod_to_equations; lia.
  - rewrite Hm. cbn [Z.eqb Pos.eqb].
    apply (f_equal (fun n => (Raise (BinasciiError (InvalidLength n)), d))).
    assert (Hl' : Z.of_nat (length (bin_data st'))
                  = digits (str_encode s) / 4 * 3)
      by (rewrite Hl; Z.div_mod_to_equations; lia).
    rewrite Hl', Z.div_mul by lia. Z.div_mod_to_equations; lia.
  - destruct Hm as [Hm|Hm]; rewrite Hm; reflexivity.
Qed.

Lemma get_result_by_digit_count_witness :
  get (exec (set (PyStr "A")) (init ∅ ∅))
  = (Raise (BinasciiError (InvalidLength (digits (str_encode "A")))),
     exec (set (PyStr "A")) (init ∅ ∅)).
Proof.
  refine (proj1 (proj2 (get_result_by_digit_count
                          (exec (set (PyStr "A")) (init ∅ ∅)) "A" _ _)) _);
    reflexivity.
Defined.

(** X7. What [set] stores for bytes is made of alphabet and pad characters
    only, all of them ASCII, so the [decode()] of the encoder's output
    cannot fail. *)
Theorem set_bytes_stores_ascii (d : Doc) (b : bytes) :
  exists s,
    ysource (exec (set (PyBytes b)) d) !! "base64"%string = Some (PyStr s) /\
    str_encode s = b64encode b /\
    forallb significant (str_encode s) = true /\
    forallb (fun c => to_Z c <? 128) (str_encode s) = true.
Proof.
  exists (bytes_decode (b64encode b)).
  rewrite ysource_set, lookup_insert_eq, str_encode_bytes_decode
    by reflexivity.
  split; [reflexivity|]. split; [reflexivity|].
  pose proof (b64encode_significant b) as H. split; [exact H|].
  revert H. apply forallb_impl. intros c Hc. apply Z.ltb_lt.
  unfold significant in Hc. apply orb_prop in Hc as [Hc|Hc].
  - now apply is_digit_ascii.
  - now apply is_pad_ascii.
Qed.

(** X8. For [n] bytes, [set] stores a text of [4 * ceil(n / 3)]
    characters. *)
Theorem set_bytes_stored_length (d : Doc) (b : bytes) :
  exists s,
    ysource (exec (set (PyBytes b)) d) !! "base64"%string = Some (PyStr s) /\
    Z.of_nat (length (str_encode s)) = 4 * ((Z.of_nat (length b) + 2) / 3).
Proof.
  exists (bytes_decode (b64encode b)).
  rewrite ysource_set, lookup_insert_eq, str_encode_bytes_decode
    by reflexivity.
  split; [reflexivity|].
  rewrite b64encode_rfc4648. now apply (rfc4648_encode_length (length b)).
Qed.

(** X9. Two byte sequences that [set] stores as the same text are the same
    byte sequence. *)
Theorem set_bytes_injective (d : Doc) (b1 b2 : bytes) :
  ysource (exec (set (PyBytes b1)) d) !! "base64"%string
  = ysource (exec (set (PyBytes b2)) d) !! "base64"%string ->
  b1 = b2.
Proof.
  rewrite !ysource_set, !lookup_insert_eq by reflexivity.
  cbn [stored]. intros H.
  injection H as H.
  apply (f_equal str_encode) in H. rewrite !str_encode_bytes_decode in H.
  apply (f_equal b64decode) in H. rewrite !b64decode_b64encode in H.
  now injection H.
Qed.

Lemma set_bytes_injective_witness :
  ysource (exec (set (PyBytes [x00; xff])) (init ∅ ∅)) !! "base64"%string
  = ysource (exec (set (PyBytes [x00; xff])) (init ∅ ∅)) !! "base64"%string
  /\ [x00; xff] = [x00; xff].
Proof.
  split; [reflexivity|].
  apply (set_bytes_injective (init ∅ ∅) [x00; xff] [x00; xff]).
  reflexivity.
Defined.

(** X10. [observe] leaves the content alone: in every state of the
    document, the state map, the source map and the log of callback
    invocations are the same after [observe(cb)] as before. *)
Theorem observe_keeps_content (d : Doc) (cb : Callback) :
  ystate (exec (observe cb) d) = ystate d /\
  ysource (exec (observe cb) d) = ysource d /\
  calls (exec (observe cb) d) = calls d /\
  eval get (exec (observe cb) d) = eval get d.
Proof.
  destruct (observe_frame cb d) as [H1 H2].
  pose proof (observe_ysource cb d) as H3.
  repeat split; try assumption.
  apply get_depends_on_field. now rewrite H3.
Qed.

(** X11. Before any [observe], nothing is called: on a document as built
    by the constructor, no sequence of [get], [set], [version] and writes
    to the state map invokes a callback. *)
Theorem no_callback_without_observe
    (st src : gmap string value) (accs : list Access) :
  calls (run (map op_of accs) (init st src)) = [].
Proof.
  destruct (run_access_silent accs (init st src) eq_refl) as [_ H].
  exact H.
Qed.

(** X12. After [unobserve()], whatever came before, nothing is called any
    more: [get], [set], [version] and writes to the state map add no
    callback invocation. *)
Theorem no_callback_after_unobserve
    (st src : gmap string value) (ops : list Op) (accs : list Access) :
  calls (run (map op_of accs) (exec unobserve (run ops (init st src))))
  = calls (run ops (init st src)).
Proof.
  assert (Ht : tracked (run ops (init st src)))
    by apply run_tracked, init_tracked.
  assert (Hs : silent (exec unobserve (run ops (init st src))) = true).
  { unfold exec. rewrite (unobserve_tracked _ Ht). reflexivity. }
  destruct (run_access_silent accs _ Hs) as [_ H]. rewrite H.
  apply unobserve_frame.
Qed.

(** X13. [get] reads no further than a padded last quad: when the stored
    string is valid base64 text ending with a pad character followed by
    anything else, [get] returns what it returns for the valid text alone,
    and raises nothing for what follows. *)
Theorem get_stops_at_padding (d : Doc) (cs tail : bytes) :
  valid_base64_bytes cs = true -> ends_with_pad cs = true ->
  eval get (exec (set (PyStr (bytes_decode (cs ++ tail)))) d)
  = eval get (exec (set (PyStr (bytes_decode cs))) d).
Proof.
  intros Hv He. unfold eval.
  rewrite !get_eq, !ysource_set, !lookup_insert_eq by reflexivity. cbn [stored].
  rewrite !str_encode_bytes_decode, (b64decode_padded_app cs tail Hv He).
  destruct (b64decode cs); reflexivity.
Qed.

Lemma get_stops_at_padding_witness :
  eval get (exec (set (PyStr (bytes_decode
                                (str_encode "AA==" ++ str_encode "AH/"))))
              (init ∅ ∅))
  = eval get (exec (set (PyStr (bytes_decode (str_encode "AA=="))))
                (init ∅ ∅)).
Proof.
  apply (get_stops_at_padding (init ∅ ∅) (str_encode "AA==")
           (str_encode "AH/")); reflexivity.
Defined.
